(** * OpenSeadragon Drawer (src/drawer.js): a shallow embedding

    The Drawer is a JavaScript object whose methods mutate the drawer
    itself, the tiles it is handed, the canvas element and its 2d
    context.  The embedding threads one [World] holding all of these
    through a state-and-exception monad: a JavaScript [throw] leaves the
    mutations made so far in place, so a thrown outcome carries the world
    it leaves behind.

    JavaScript numbers are IEEE 754 binary64 values and are modelled by
    Rocq's primitive floats, whose operations are the binary64 ones. *)

From Stdlib Require Import PrimFloat ZArith List Lia.
From Stdlib Require FloatOps Uint63.
From stdpp Require Import base option list gmap strings.

(** ** Numbers *)

Module Js.

(** [a === b] on two numbers: IEEE equality ([NaN] differs from itself,
    [-0] equals [0]). *)
Definition strict_eq (a b : float) : bool := PrimFloat.eqb a b.

(** [a !== b]. *)
Definition strict_neq (a b : float) : bool := negb (strict_eq a b).

(** [a != b]; on two numbers the loose and the strict comparison agree. *)
Definition neq (a b : float) : bool := negb (PrimFloat.eqb a b).

(** Conversion of a number to a Web IDL [unsigned long], as an assignment
    to an attribute of that type performs it: NaN, the zeros and the
    infinities give 0; any other number is truncated towards zero and
    taken modulo 2^32. *)
Definition toUnsignedLong (v : float) : Z :=
  match FloatOps.Prim2SF v with
  | SpecFloat.S754_finite negative m e =>
      let magnitude :=
        if (0 <=? e)%Z then Z.shiftl (Zpos m) e else Z.shiftr (Zpos m) (- e) in
      ((if negative then - magnitude else magnitude) mod 2 ^ 32)%Z
  | _ => 0%Z
  end.

(** [Math.PI], the binary64 value 3.141592653589793. *)
Definition Math_PI : float := 0x1.921fb54442d18p+1%float.

End Js.

(** ** Data model *)

(** [$.Point]. *)
Record Point := mkPoint { x : float; y : float }.

(** Tiles are objects shared between [tilesMatrix], [tilesLoaded],
    [lastDrawn] and the callers of [drawTile]: they live in a heap and are
    referred to by address. *)
Definition TileId := nat.

(** An opaque decoded image. *)
Definition Image := nat.

(** The fields of a [Tile] that the drawer reads or writes, and the two
    that [tile.unload] clears. *)
Record Tile := mkTile {
  position : Point;
  size     : Point;
  loaded   : bool;
  image    : option Image
}.

(** The 2d context keeps a current transformation and a stack of saved
    drawing states.  The current transformation is kept as the sequence of
    transformations applied since the identity. *)
Inductive Transform :=
| Translate (dx dy : float)
| Rotate (angle : float).

Record Context := mkContext {
  current : list Transform;
  saved   : list (list Transform)
}.

(** A child node of the drawer's element (the div variant places one per
    tile). *)
Record Node := mkNode {
  node_tile     : TileId;
  node_position : Point;
  node_size     : Point
}.

(** [this.canvas]: a canvas element, or a div when canvases are not in
    use.  [innerHTML] is its list of children.  On a canvas element
    [width] and [height] are the element's attributes of that name; on a
    div they are plain properties holding what was last assigned to them. *)
Record Canvas := mkCanvas {
  width     : float;
  height    : float;
  innerHTML : list Node
}.

(** [this.viewer], as far as the drawer looks into it. *)
Record Viewer := mkViewer { viewer_useCanvas : bool }.

(** [this.viewport], as far as the drawer looks into it. *)
Record Viewport := mkViewport {
  degrees       : float;
  containerSize : Point
}.

(** The drawer's own fields (the constructor's internal state properties,
    [useCanvas], [canvas] and [context]). *)
Record Drawer := mkDrawer {
  viewer        : option Viewer;
  tilesMatrix   : gmap nat (gmap nat (gmap nat TileId));
  tilesLoaded   : list TileId;
  coverage      : gmap nat (gmap nat (gmap nat bool));
  lastDrawn     : list TileId;
  lastResetTime : Z;
  midUpdate     : bool;
  updateAgain   : bool;
  useCanvas     : bool;
  canvas        : Canvas;
  context       : option Context
}.

(** The argument [_drawingHandler] is called with
    ([{context, tile, rendered}]; the context is the drawer's own). *)
Record DrawingArgs := mkDrawingArgs { arg_tile : TileId; arg_rendered : option Image }.

(** Calls that leave no mark on the fields above are recorded in a trace,
    oldest first: writes to the canvas dimensions (with the value
    assigned), [context.clearRect] (with the transformation it was issued
    under), [context.drawImage], and entries into [_drawingHandler]. *)
Inductive Call :=
| SetCanvasWidth (v : float)
| SetCanvasHeight (v : float)
| ClearRect (under : list Transform) (rx ry rw rh : float)
| DrawImage (img : option Image) (at_position at_size : Point)
| DrawingHandler (args : DrawingArgs).

Record World := mkWorld {
  drawer   : Drawer;
  viewport : Viewport;
  tiles    : gmap TileId Tile;
  clock    : Z;
  trace    : list Call
}.

(** Field updates. *)

Definition set_tilesMatrix (v : gmap nat (gmap nat (gmap nat TileId))) (d : Drawer) : Drawer :=
  mkDrawer (viewer d) v (tilesLoaded d) (coverage d) (lastDrawn d)
           (lastResetTime d) (midUpdate d) (updateAgain d) (useCanvas d) (canvas d) (context d).

Definition set_tilesLoaded (v : list TileId) (d : Drawer) : Drawer :=
  mkDrawer (viewer d) (tilesMatrix d) v (coverage d) (lastDrawn d)
           (lastResetTime d) (midUpdate d) (updateAgain d) (useCanvas d) (canvas d) (context d).

Definition set_coverage (v : gmap nat (gmap nat (gmap nat bool))) (d : Drawer) : Drawer :=
  mkDrawer (viewer d) (tilesMatrix d) (tilesLoaded d) v (lastDrawn d)
           (lastResetTime d) (midUpdate d) (updateAgain d) (useCanvas d) (canvas d) (context d).

Definition set_lastDrawn (v : list TileId) (d : Drawer) : Drawer :=
  mkDrawer (viewer d) (tilesMatrix d) (tilesLoaded d) (coverage d) v
           (lastResetTime d) (midUpdate d) (updateAgain d) (useCanvas d) (canvas d) (context d).

Definition set_lastResetTime (v : Z) (d : Drawer) : Drawer :=
  mkDrawer (viewer d) (tilesMatrix d) (tilesLoaded d) (coverage d) (lastDrawn d)
           v (midUpdate d) (updateAgain d) (useCanvas d) (canvas d) (context d).

Definition set_midUpdate (v : bool) (d : Drawer) : Drawer :=
  mkDrawer (viewer d) (tilesMatrix d) (tilesLoaded d) (coverage d) (lastDrawn d)
           (lastResetTime d) v (updateAgain d) (useCanvas d) (canvas d) (context d).

Definition set_updateAgain (v : bool) (d : Drawer) : Drawer :=
  mkDrawer (viewer d) (tilesMatrix d) (tilesLoaded d) (coverage d) (lastDrawn d)
           (lastResetTime d) (midUpdate d) v (useCanvas d) (canvas d) (context d).

Definition set_canvas (v : Canvas) (d : Drawer) : Drawer :=
  mkDrawer (viewer d) (tilesMatrix d) (tilesLoaded d) (coverage d) (lastDrawn d)
           (lastResetTime d) (midUpdate d) (updateAgain d) (useCanvas d) v (context d).

Definition set_context (v : option Context) (d : Drawer) : Drawer :=
  mkDrawer (viewer d) (tilesMatrix d) (tilesLoaded d) (coverage d) (lastDrawn d)
           (lastResetTime d) (midUpdate d) (updateAgain d) (useCanvas d) (canvas d) v.

Definition with_drawer (f : Drawer -> Drawer) (w : World) : World :=
  mkWorld (f (drawer w)) (viewport w) (tiles w) (clock w) (trace w).

Definition with_tiles (f : gmap TileId Tile -> gmap TileId Tile) (w : World) : World :=
  mkWorld (drawer w) (viewport w) (f (tiles w)) (clock w) (trace w).

Definition record (c : Call) (w : World) : World :=
  mkWorld (drawer w) (viewport w) (tiles w) (clock w) (trace w ++ [c]).

(** ** Statements that may throw *)

Inductive Error :=
| TypeError                (* a property read or a method call on null/undefined *)
| Raised (code : nat).     (* anything thrown by code outside the drawer *)

Inductive Outcome (A : Type) :=
| Return (a : A) (w : World)
| Throw (e : Error) (w : World).
Arguments Return {A} a w.
Arguments Throw {A} e w.

Definition M (A : Type) : Type := World -> Outcome A.

Definition ret {A} (a : A) : M A := fun w => Return a w.

Definition throw {A} (e : Error) : M A := fun w => Throw e w.

Definition bind {A B} (m : M A) (k : A -> M B) : M B :=
  fun w => match m w with
           | Return a w' => k a w'
           | Throw e w' => Throw e w'
           end.

Notation "v <- m ;; k" := (bind m (fun v => k))
  (at level 100, m at next level, k at level 200, right associativity).
Notation "m ;; k" := (bind m (fun _ => k))
  (at level 100, k at level 200, right associativity).

(** The world an outcome leaves behind. *)
Definition final {A} (o : Outcome A) : World :=
  match o with Return _ w => w | Throw _ w => w end.

Definition get : M World := fun w => Return w w.

Definition modify (f : World -> World) : M unit := fun w => Return tt (f w).

(** ** Objects the drawer works on *)

(** Dereferencing a tile: a reference to no object is [undefined], and
    reading a property of it throws. *)
Definition getTile (tile : TileId) : M Tile :=
  fun w => match tiles w !! tile with
           | Some t => Return t w
           | None => Throw TypeError w
           end.

(** [tile.position.x = px; tile.position.y = py]. *)
Definition setPosition (tile : TileId) (p : Point) : M unit :=
  t <- getTile tile ;;
  modify (with_tiles (insert tile (mkTile p (size t) (loaded t) (image t)))).

(** [this.context] is [null] when no canvas is in use; a method call on it
    then throws. *)
Definition withContext (f : Context -> Context) : M unit :=
  fun w => match context (drawer w) with
           | Some c => Return tt (with_drawer (set_context (Some (f c))) w)
           | None => Throw TypeError w
           end.

(** [context.save()] pushes the current drawing state. *)
Definition ctx_save : M unit :=
  withContext (fun c => mkContext (current c) (current c :: saved c)).

(** [context.restore()] pops the last saved state; on an empty stack it
    does nothing. *)
Definition ctx_restore : M unit :=
  withContext (fun c => match saved c with
                        | s :: rest => mkContext s rest
                        | [] => c
                        end).

Definition ctx_translate (dx dy : float) : M unit :=
  withContext (fun c => mkContext (current c ++ [Translate dx dy]) (saved c)).

Definition ctx_rotate (angle : float) : M unit :=
  withContext (fun c => mkContext (current c ++ [Rotate angle]) (saved c)).

(** The transformation in force. *)
Definition transformation (w : World) : list Transform :=
  match context (drawer w) with
  | Some c => current c
  | None => []
  end.

Definition ctx_clearRect (rx ry rw rh : float) : M unit :=
  withContext (fun c => c) ;;
  w <- get ;;
  modify (record (ClearRect (transformation w) rx ry rw rh)).

Definition ctx_drawImage (img : option Image) (p s : Point) : M unit :=
  withContext (fun c => c) ;; modify (record (DrawImage img p s)).

(** What reading [canvas.width] or [canvas.height] gives after [v] was
    assigned to it, on a canvas element.  The attribute is an
    [unsigned long] that reflects a content attribute: the number is
    converted, and a value beyond 2147483647 is replaced by the
    attribute's default (300 for the width, 150 for the height). *)
Definition canvasDimension (default : Z) (v : float) : float :=
  let n := Js.toUnsignedLong v in
  PrimFloat.of_uint63 (Uint63.of_Z (if (n <=? 2147483647)%Z then n else default)).

(** Setting either dimension of a canvas element, even to the value it
    has, clears the bitmap and resets its 2d context to the initial state:
    identity transformation, no saved states. *)
Definition resetContext (d : Drawer) : Drawer :=
  set_context (match context d with
               | Some _ => Some (mkContext [] [])
               | None => None
               end) d.

(** [this.canvas.width = v] and [this.canvas.height = v]: on a canvas
    element the attribute is set and the context reset; on a div the
    number is stored as a property. *)
Definition setCanvasWidth (v : float) : M unit :=
  w <- get ;;
  (if useCanvas (drawer w) then
     modify (with_drawer (fun d =>
       resetContext (set_canvas (mkCanvas (canvasDimension 300 v) (height (canvas d))
                                          (innerHTML (canvas d))) d)))
   else
     modify (with_drawer (fun d =>
       set_canvas (mkCanvas v (height (canvas d)) (innerHTML (canvas d))) d))) ;;
  modify (record (SetCanvasWidth v)).

Definition setCanvasHeight (v : float) : M unit :=
  w <- get ;;
  (if useCanvas (drawer w) then
     modify (with_drawer (fun d =>
       resetContext (set_canvas (mkCanvas (width (canvas d)) (canvasDimension 150 v)
                                          (innerHTML (canvas d))) d)))
   else
     modify (with_drawer (fun d =>
       set_canvas (mkCanvas (width (canvas d)) v (innerHTML (canvas d))) d))) ;;
  modify (record (SetCanvasHeight v)).

Definition setInnerHTML (l : list Node) : M unit :=
  modify (with_drawer (fun d => set_canvas (mkCanvas (width (canvas d)) (height (canvas d)) l) d)).

(** [viewport.getContainerSize()]: a fresh point holding the container
    size the viewport reports. *)
Definition getContainerSize (v : Viewport) : Point :=
  mkPoint (x (containerSize v)) (y (containerSize v)).

(** [$.now()]: the current time in milliseconds. *)
Definition now : M Z := fun w => Return (clock w) w.

(** Time passing between two calls. *)
Definition tick (dt : Z) (w : World) : World :=
  mkWorld (drawer w) (viewport w) (tiles w) (clock w + dt)%Z (trace w).

(** ** The methods of [Tile] that the drawer calls (tile.js) *)

(** Modelled from the spec: [tile.unload] is not part of drawer.js.  A
    tile that becomes unloaded gives up its image: [loaded] is cleared and
    [image] set to null. *)
Definition tile_unload (tile : TileId) : M unit :=
  t <- getTile tile ;;
  modify (with_tiles (insert tile (mkTile (position t) (size t) false None))).

(** Modelled from the spec: [tile.drawCanvas(context, drawingHandler)] is
    not part of drawer.js.  It invokes the hook it is handed and then
    composites the tile's image at the tile's position and size. *)
Definition tile_drawCanvas (tile : TileId) (drawingHandler : DrawingArgs -> M unit) : M unit :=
  t <- getTile tile ;;
  drawingHandler (mkDrawingArgs tile (image t)) ;;
  t' <- getTile tile ;;
  ctx_drawImage (image t') (position t') (size t').

(** Inserting the node of a tile among the children, or repositioning the
    one already there. *)
Fixpoint place (n : Node) (l : list Node) : list Node :=
  match l with
  | [] => [n]
  | m :: l' => if Nat.eqb (node_tile m) (node_tile n) then n :: l' else m :: place n l'
  end.

(** Modelled from the spec: [tile.drawHTML(container)] is not part of
    drawer.js.  It inserts or positions the node that stands for the tile
    in the container; it is handed no hook. *)
Definition tile_drawHTML (tile : TileId) : M unit :=
  t <- getTile tile ;;
  w <- get ;;
  setInnerHTML (place (mkNode tile (position t) (size t)) (innerHTML (canvas (drawer w)))).

(** ** The Drawer *)

(** [$.Drawer(options)]: the fields of a new drawer.  [supportsCanvas] is
    [$.supportsCanvas], [element] the neutral element the constructor
    creates, and a new 2d context has the identity transformation and no
    saved state. *)
Definition newDrawer (supportsCanvas : bool) (options_viewer : option Viewer)
    (element : Canvas) : Drawer :=
  let uses := supportsCanvas &&
              match options_viewer with
              | Some v => viewer_useCanvas v
              | None => true
              end in
  mkDrawer options_viewer ∅ [] ∅ [] 0 false true uses element
           (if uses then Some (mkContext [] []) else None).

(** [needsUpdate]. *)
Definition needsUpdate (w : World) : bool := updateAgain (drawer w).

(** [numTilesLoaded]. *)
Definition numTilesLoaded (w : World) : nat := length (tilesLoaded (drawer w)).

(** [canRotate]. *)
Definition canRotate (w : World) : bool := useCanvas (drawer w).

(** Unloading the tiles of a list, one after the other. *)
Fixpoint unloadAll (l : list TileId) : M unit :=
  match l with
  | [] => ret tt
  | t :: l' => tile_unload t ;; unloadAll l'
  end.

(** Modelled from the spec: [clearTiles(drawer)] is called by [reset] but
    not defined in drawer.js.  It unloads every loaded tile and empties
    [tilesMatrix], [coverage], [tilesLoaded] and [lastDrawn]. *)
Definition clearTiles : M unit :=
  w <- get ;;
  unloadAll (tilesLoaded (drawer w)) ;;
  modify (with_drawer (fun d =>
    set_lastDrawn [] (set_tilesLoaded [] (set_coverage ∅ (set_tilesMatrix ∅ d))))).

(** [reset]. *)
Definition reset : M unit :=
  clearTiles ;;
  t <- now ;;
  modify (with_drawer (set_lastResetTime t)) ;;
  modify (with_drawer (set_updateAgain true)).

(** [destroy].  The loop reads [this.tilesLoaded.length] and
    [this.tilesLoaded[i]] afresh on every round, so it is written with an
    index and a bound on the number of rounds; [None] says the bound was
    too small. *)
Fixpoint destroy_loop (fuel i : nat) (w : World) : option (Outcome unit) :=
  match fuel with
  | O => None
  | S fuel' =>
      match tilesLoaded (drawer w) !! i with
      | Some t =>
          match tile_unload t w with
          | Return _ w' => destroy_loop fuel' (S i) w'
          | Throw e w' => Some (Throw e w')
          end
      | None => Some (Return tt w)       (* i < this.tilesLoaded.length fails *)
      end
  end.

Definition destroy (fuel : nat) (w : World) : option (Outcome unit) :=
  match destroy_loop fuel 0 w with
  | Some (Return _ w') => Some ((setCanvasWidth 1 ;; setCanvasHeight 1) w')
  | other => other
  end.

(** [clear]. *)
Definition clear : M unit :=
  setInnerHTML [] ;;
  w <- get ;;
  if useCanvas (drawer w) then
    let viewportSize := getContainerSize (viewport w) in
    (if Js.neq (width (canvas (drawer w))) (x viewportSize) ||
        Js.neq (height (canvas (drawer w))) (y viewportSize)
     then setCanvasWidth (x viewportSize) ;; setCanvasHeight (y viewportSize)
     else ret tt) ;;
    ctx_clearRect 0 0 (x viewportSize) (y viewportSize)
  else ret tt.

(** [_offsetForRotation]. *)
Definition _offsetForRotation (tile : TileId) (degrees : float) : M unit :=
  w <- get ;;
  let cx := (width (canvas (drawer w)) / 2)%float in
  let cy := (height (canvas (drawer w)) / 2)%float in
  t <- getTile tile ;;
  let px := (x (position t) - cx)%float in
  let py := (y (position t) - cy)%float in
  ctx_save ;;
  ctx_translate cx cy ;;
  ctx_rotate (Js.Math_PI / 180 * degrees)%float ;;
  setPosition tile (mkPoint px py).

(** [_restoreRotationChanges]. *)
Definition _restoreRotationChanges (tile : TileId) : M unit :=
  w <- get ;;
  let cx := (width (canvas (drawer w)) / 2)%float in
  let cy := (height (canvas (drawer w)) / 2)%float in
  t <- getTile tile ;;
  let px := (x (position t) + cx)%float in
  let py := (y (position t) + cy)%float in
  setPosition tile (mkPoint px py) ;;
  ctx_restore.

Section Methods.

(** [viewer.raiseEvent(name, args)] runs the handlers the application
    registered for the event; they are code outside the drawer. *)
Variable raiseEvent : string -> DrawingArgs -> M unit.

(** [updateViewport(drawer)], the body of one frame, is called by
    [update] but not defined in drawer.js. *)
Variable updateViewport : M unit.

(** [this._drawingHandler].  Its entry is recorded in the trace. *)
Definition _drawingHandler (args : DrawingArgs) : M unit :=
  modify (record (DrawingHandler args)) ;;
  w <- get ;;
  match viewer (drawer w) with
  | Some _ => raiseEvent "tile-drawing" args
  | None => ret tt
  end.

(** [update]. *)
Definition update : M unit :=
  modify (with_drawer (set_midUpdate true)) ;;
  updateViewport ;;
  modify (with_drawer (set_midUpdate false)).

(** [drawTile]. *)
Definition drawTile (tile : TileId) : M unit :=
  w <- get ;;
  if useCanvas (drawer w) then
    if Js.strict_neq (degrees (viewport w)) 0 then
      _offsetForRotation tile (degrees (viewport w)) ;;
      tile_drawCanvas tile _drawingHandler ;;
      _restoreRotationChanges tile
    else
      tile_drawCanvas tile _drawingHandler
  else
    tile_drawHTML tile.

End Methods.

(** ** Vocabulary of the statements *)

(** The centre of the backend: [(canvas.width / 2, canvas.height / 2)]. *)
Definition center (w : World) : Point :=
  mkPoint (width (canvas (drawer w)) / 2)%float (height (canvas (drawer w)) / 2)%float.

Definition minus (p c : Point) : Point := mkPoint (x p - x c)%float (y p - y c)%float.

Definition plus (p c : Point) : Point := mkPoint (x p + x c)%float (y p + y c)%float.

Definition moveTo (p : Point) (t : Tile) : Tile :=
  mkTile p (size t) (loaded t) (image t).

(** What the context looks like after save, translate and rotate. *)
Definition rotated (cx cy degrees : float) (c : Context) : Context :=
  mkContext ((current c ++ [Translate cx cy]) ++ [Rotate (Js.Math_PI / 180 * degrees)%float])
            (current c :: saved c).

(** What [context.restore()] makes of a context. *)
Definition restored (c : Context) : Context :=
  match saved c with
  | s :: rest => mkContext s rest
  | [] => c
  end.

(** Position and size of the tile behind a reference. *)
Definition placement (tile : TileId) (w : World) : option (Point * Point) :=
  (fun t => (position t, size t)) <$> tiles w !! tile.

Definition positionOf (tile : TileId) (w : World) : option Point :=
  position <$> tiles w !! tile.


(** A tile that has given up its image. *)
Definition unloaded (tile : TileId) (w : World) : Prop :=
  exists t, tiles w !! tile = Some t /\ loaded t = false /\ image t = None.

(** Every reference held in [tilesLoaded] is to a tile object (in
    JavaScript a reference cannot dangle). *)
Definition live (w : World) : Prop :=
  forall tile, tile ∈ tilesLoaded (drawer w) -> is_Some (tiles w !! tile).

(** The four cache structures. *)
Definition cacheState (w : World) :=
  (tilesMatrix (drawer w), coverage (drawer w), tilesLoaded (drawer w), lastDrawn (drawer w)).

Definition emptyCache :
  gmap nat (gmap nat (gmap nat TileId)) * gmap nat (gmap nat (gmap nat bool)) *
  list TileId * list TileId := (∅, ∅, [], []).

(** The world as [update] hands it to the frame body. *)
Definition guarded (w : World) : World := with_drawer (set_midUpdate true) w.

(** The value of the re-entrancy guard. *)
Definition guard (w : World) : bool := midUpdate (drawer w).

(** A statement leaves an observation of the world as it found it, however
    it ends. *)
Definition preserves {A B} (f : World -> A) (m : M B) : Prop :=
  forall w, f (final (m w)) = f w.

(** The entries of [_drawingHandler] in a trace. *)
Definition isHook (c : Call) : bool :=
  match c with DrawingHandler _ => true | _ => false end.

Definition hookCalls (l : list Call) : list Call := List.filter isHook l.

(** Whether the drawer holds a 2d context. *)
Definition hasContext (w : World) : bool :=
  match context (drawer w) with Some _ => true | None => false end.

(** Which variant the drawer is: [useCanvas], and whether it has a context. *)
Definition backend (w : World) : bool * bool := (useCanvas (drawer w), hasContext w).

(** The drawer has a context exactly when it uses a canvas, as the
    constructor leaves it. *)
Definition consistent (w : World) : Prop := useCanvas (drawer w) = hasContext w.

(** What the drawer keeps about its tiles and its frames, and its viewer. *)
Definition bookkeeping (w : World) :=
  (cacheState w, lastResetTime (drawer w), midUpdate (drawer w),
   updateAgain (drawer w), viewer (drawer w)).

(** What a tile carries besides its position. *)
Definition payload (tile : TileId) (w : World) : option (Point * bool * option Image) :=
  (fun t => (size t, loaded t, image t)) <$> tiles w !! tile.

(** What [destroy] makes of the drawer's fields: the canvas 1 by 1 and,
    on a canvas element, the context reset by the writes. *)
Definition destroyed (d : Drawer) : Drawer :=
  let shrunk := set_canvas (mkCanvas 1 1 (innerHTML (canvas d))) d in
  if useCanvas d then resetContext shrunk else shrunk.

(** What unloading tiles cannot reach. *)
Definition surroundings (w : World) := (drawer w, viewport w, clock w, trace w).

(** [depth] rotated frames around tile [tile], one inside the other, with
    [body] innermost: each level enters with [_offsetForRotation] and
    leaves with [_restoreRotationChanges]. *)
Fixpoint nested (depth : nat) (tile : TileId) (D : float) (body : M unit) : M unit :=
  match depth with
  | O => body
  | S depth' =>
      _offsetForRotation tile D ;;
      nested depth' tile D body ;;
      _restoreRotationChanges tile
  end.

(** ** Sample worlds *)

Module Sample.

(** A canvas drawer whose backend centre is (50, 50). *)
Definition surface : Drawer :=
  newDrawer true (Some (mkViewer true)) (mkCanvas 100 100 []).

(** A drawer on the div variant. *)
Definition nodes : Drawer :=
  newDrawer false (Some (mkViewer true)) (mkCanvas 100 100 []).

Definition tileAt (px py : float) : Tile :=
  mkTile (mkPoint px py) (mkPoint 256 256) true (Some 7).

(** One loaded tile, referenced as 0, in front of drawer [d] under
    rotation [deg]. *)
Definition world (d : Drawer) (deg px py : float) : World :=
  mkWorld (set_tilesLoaded [0] d) (mkViewport deg (mkPoint 100 100))
          {[ 0 := tileAt px py ]} 1000 [].

(** The same tile entered in every cache structure of a canvas drawer. *)
Definition busy : World :=
  mkWorld (set_lastDrawn [0]
             (set_coverage {[ 2 := {[ 1 := {[ 1 := true ]} ]} ]}
                (set_tilesMatrix {[ 2 := {[ 1 := {[ 1 := 0 ]} ]} ]}
                   (set_tilesLoaded [0] surface))))
          (mkViewport 0 (mkPoint 100 100)) {[ 0 := tileAt 10 10 ]} 1000 [].

(** Application handlers: one that does nothing, one that throws. *)
Definition quiet : string -> DrawingArgs -> M unit := fun _ _ => ret tt.

Definition failing : string -> DrawingArgs -> M unit := fun _ _ => throw (Raised 1).

(** A frame body: clear the surface, then draw tile 0. *)
Definition frame (handlers : string -> DrawingArgs -> M unit) : M unit :=
  clear ;; drawTile handlers 0.

(** An application handler that calls [update] from inside the draw
    hook.  It first makes sure that an update is indeed under way, and
    throws if not. *)
Definition reentrant : string -> DrawingArgs -> M unit :=
  fun _ _ =>
    w <- get ;;
    if midUpdate (drawer w) then update (frame quiet) else throw (Raised 2).


(** A canvas drawer that was given no viewer, in front of tile 0. *)
Definition bare : World :=
  mkWorld (newDrawer true None (mkCanvas 100 100 [])) (mkViewport 45 (mkPoint 100 100))
          {[ 0 := tileAt 10 10 ]} 1000 [].

End Sample.

(** ** The debug overlay *)

(** [drawDebugInfo] sets the parts of the drawing state that [drawTile]
    leaves alone (line width, font, stroke and fill style) and issues
    [strokeRect] and [fillText].  It reads the tile and the viewport and
    writes the context only, so it is modelled on a context of its own that
    carries the whole drawing state. *)
Module Debug.

(** The pen: what the four assignments of [drawDebugInfo] set. *)
Record Pen := mkPen {
  lineWidth   : float;
  font        : string;
  strokeStyle : string;
  fillStyle   : string
}.

(** A drawing state, as [save] pushes and [restore] pops it. *)
Record State := mkState { transform : list Transform; pen : Pen }.

(** [$.Rect], as [viewport.getBounds()] returns it. *)
Record Rect := mkRect { rect_x : float; rect_y : float; rect_width : float; rect_height : float }.

(** The text handed to [fillText] is a concatenation of string literals,
    numbers and the [toString()] of a point or rectangle; it is kept as the
    list of its pieces, numbers and objects unformatted. *)
Inductive Piece :=
| Lit (s : string)
| Num (v : float)
| PointText (p : Point)
| RectText (r : Rect).

(** The drawing calls, each with the drawing state it was issued under. *)
Inductive Command :=
| StrokeRect (under : State) (rx ry rw rh : float)
| FillText (under : State) (text : list Piece) (tx ty : float).

Record Context2D := mkContext2D {
  state  : State;
  stack  : list State;
  issued : list Command
}.

(** The tile as [drawDebugInfo] reads it: its place in the pyramid
    ([tile.level], [tile.x], [tile.y]) and its [position] and [size]. *)
Record DebugTile := mkDebugTile {
  level   : float;
  column  : float;
  row     : float;
  placed  : Tile
}.

(** What [drawDebugInfo] asks of the viewport. *)
Record View := mkView { getZoom : float; getBounds : Rect }.

(** What [drawDebugInfo] reads and writes of the drawer. *)
Record Overlay := mkOverlay {
  usesCanvas     : bool;
  context2d      : option Context2D;
  debugGridColor : string;
  view           : View
}.

Definition save (c : Context2D) : Context2D :=
  mkContext2D (state c) (state c :: stack c) (issued c).

Definition restore (c : Context2D) : Context2D :=
  match stack c with
  | s :: rest => mkContext2D s rest (issued c)
  | [] => c
  end.

Definition setPen (f : Pen -> Pen) (c : Context2D) : Context2D :=
  mkContext2D (mkState (transform (state c)) (f (pen (state c)))) (stack c) (issued c).

Definition setLineWidth (v : float) : Context2D -> Context2D :=
  setPen (fun p => mkPen v (font p) (strokeStyle p) (fillStyle p)).

Definition setFont (v : string) : Context2D -> Context2D :=
  setPen (fun p => mkPen (lineWidth p) v (strokeStyle p) (fillStyle p)).

Definition setStrokeStyle (v : string) : Context2D -> Context2D :=
  setPen (fun p => mkPen (lineWidth p) (font p) v (fillStyle p)).

Definition setFillStyle (v : string) : Context2D -> Context2D :=
  setPen (fun p => mkPen (lineWidth p) (font p) (strokeStyle p) v).

Definition strokeRect (rx ry rw rh : float) (c : Context2D) : Context2D :=
  mkContext2D (state c) (stack c) (issued c ++ [StrokeRect (state c) rx ry rw rh]).

Definition fillText (text : list Piece) (tx ty : float) (c : Context2D) : Context2D :=
  mkContext2D (state c) (stack c) (issued c ++ [FillText (state c) text tx ty]).

(** The two lines written for the tile at column 0, row 0 only. *)
Definition headline (v : View) (tile : DebugTile) (c : Context2D) : Context2D :=
  if Js.strict_eq (column tile) 0 && Js.strict_eq (row tile) 0 then
    let c := fillText [Lit "Zoom: "; Num (getZoom v)]
               (x (position (placed tile))) (y (position (placed tile)) - 30)%float c in
    fillText [Lit "Pan: "; RectText (getBounds v)]
             (x (position (placed tile))) (y (position (placed tile)) - 20)%float c
  else c.

(** [drawDebugInfo(tile, count, i)]: the overlay it leaves, or the error
    thrown when a canvas is in use but there is no context. *)
Definition drawDebugInfo (o : Overlay) (tile : DebugTile) (count i : float) : Error + Overlay :=
  if usesCanvas o then
    match context2d o with
    | None => inl TypeError
    | Some c =>
        let px := x (position (placed tile)) in
        let py := y (position (placed tile)) in
        let c := save c in
        let c := setLineWidth 2 c in
        let c := setFont "small-caps bold 13px ariel" c in
        let c := setStrokeStyle (debugGridColor o) c in
        let c := setFillStyle (debugGridColor o) c in
        let c := strokeRect px py (x (size (placed tile))) (y (size (placed tile))) c in
        let c := headline (view o) tile c in
        let c := fillText [Lit "Level: "; Num (level tile)] (px + 10)%float (py + 20)%float c in
        let c := fillText [Lit "Column: "; Num (column tile)] (px + 10)%float (py + 30)%float c in
        let c := fillText [Lit "Row: "; Num (row tile)] (px + 10)%float (py + 40)%float c in
        let c := fillText [Lit "Order: "; Num i; Lit " of "; Num count]
                   (px + 10)%float (py + 50)%float c in
        let c := fillText [Lit "Size: "; PointText (size (placed tile))]
                   (px + 10)%float (py + 60)%float c in
        let c := fillText [Lit "Position: "; PointText (position (placed tile))]
                   (px + 10)%float (py + 70)%float c in
        let c := restore c in
        inr (mkOverlay (usesCanvas o) (Some c) (debugGridColor o) (view o))
    end
  else inr o.

(** The drawing state a command was issued under. *)
Definition issuedUnder (cmd : Command) : State :=
  match cmd with
  | StrokeRect s _ _ _ _ => s
  | FillText s _ _ _ => s
  end.

Definition isText (cmd : Command) : bool :=
  match cmd with FillText _ _ _ _ => true | StrokeRect _ _ _ _ _ => false end.

(** The pen of the debug overlay. *)
Definition debugPen (color : string) : Pen :=
  mkPen 2 "small-caps bold 13px ariel" color color.

(** A sample overlay: a context with one saved state, under a rotation. *)
Definition sampleContext : Context2D :=
  mkContext2D (mkState [Rotate 1] (mkPen 1 "10px sans-serif" "black" "black"))
              [mkState [] (mkPen 1 "10px sans-serif" "black" "black")] [].

Definition sampleOverlay (canvas : bool) : Overlay :=
  mkOverlay canvas (if canvas then Some sampleContext else None) "red"
            (mkView 2 (mkRect 0 0 1 1)).

Definition sampleTile (col rw : float) : DebugTile :=
  mkDebugTile 3 col rw (mkTile (mkPoint 10 10) (mkPoint 256 256) true (Some 7)).

End Debug.

Ltac run :=
  cbv [bind ret throw get modify getTile setPosition withContext
       ctx_save ctx_restore ctx_translate ctx_rotate ctx_clearRect ctx_drawImage
       setCanvasWidth setCanvasHeight setInnerHTML now]; cbn.

(** * Properties *)

(** ** Running the rotation helpers *)

Lemma offsetForRotation_run (tile : TileId) (D : float) (w : World) (c : Context) (t : Tile) :
  context (drawer w) = Some c ->
  tiles w !! tile = Some t ->
  _offsetForRotation tile D w =
    Return tt (with_tiles (insert tile (moveTo (minus (position t) (center w)) t))
                 (with_drawer (set_context (Some (rotated (x (center w)) (y (center w)) D c))) w)).
Proof.
  intros Hc Ht. unfold _offsetForRotation. run.
  rewrite Ht. cbn. rewrite Hc. cbn. rewrite Ht. reflexivity.
Qed.

Lemma restoreRotationChanges_run (tile : TileId) (w : World) (c : Context) (t : Tile) :
  context (drawer w) = Some c ->
  tiles w !! tile = Some t ->
  _restoreRotationChanges tile w =
    Return tt (with_drawer (set_context (Some (restored c)))
                 (with_tiles (insert tile (moveTo (plus (position t) (center w)) t)) w)).
Proof.
  intros Hc Ht. unfold _restoreRotationChanges. run.
  rewrite Ht. cbn. rewrite Ht. cbn. rewrite Hc. reflexivity.
Qed.

(** Restoring right after entering gives the context back as it was. *)
Lemma restored_rotated (cx cy D : float) (c : Context) : restored (rotated cx cy D c) = c.
Proof. destruct c; reflexivity. Qed.


(** The round trip through the rotated frame, on any world: the context
    comes back as it was and the position is the centre subtracted and
    added again, in binary64 arithmetic. *)
Lemma rotation_roundtrip_run (tile : TileId) (D : float) (w : World) (c : Context) (t : Tile) :
  context (drawer w) = Some c ->
  tiles w !! tile = Some t ->
  exists w',
    (_offsetForRotation tile D ;; _restoreRotationChanges tile) w = Return tt w' /\
    context (drawer w') = Some c /\
    tiles w' !! tile = Some (moveTo (plus (minus (position t) (center w)) (center w)) t).
Proof.
  intros Hc Ht. unfold bind at 1.
  rewrite (offsetForRotation_run tile D w c t Hc Ht).
  erewrite restoreRotationChanges_run;
    [ | cbn; reflexivity | cbn; apply lookup_insert_eq ].
  eexists; split; [reflexivity|]. split.
  - destruct c; reflexivity.
  - cbn. rewrite lookup_insert_eq. reflexivity.
Qed.

(** ** Entering and leaving the rotated frame *)

(** C5: on a drawer that has a drawing context, [_offsetForRotation]
    returns normally for every tile and every angle [D]; afterwards the
    tile's position is its old position minus the backend centre
    [(canvas.width / 2, canvas.height / 2)], the drawing state has been
    saved, and the current transformation has been extended by a
    translation to the centre followed by a rotation by [Math.PI / 180 * D]. *)
Theorem offsetForRotation_enters
    (tile : TileId) (D : float) (w : World) (c : Context) (t : Tile) :
  context (drawer w) = Some c ->
  tiles w !! tile = Some t ->
  exists w',
    _offsetForRotation tile D w = Return tt w' /\
    positionOf tile w' = Some (minus (position t) (center w)) /\
    placement tile w' = Some (minus (position t) (center w), size t) /\
    context (drawer w') =
      Some (mkContext (current c ++ [Translate (x (center w)) (y (center w));
                                     Rotate (Js.Math_PI / 180 * D)%float])
                      (current c :: saved c)).
Proof.
  intros Hc Ht. eexists. split; [exact (offsetForRotation_run tile D w c t Hc Ht)|].
  unfold positionOf, placement. cbn. rewrite lookup_insert_eq. cbn.
  repeat split. unfold rotated. now rewrite <- app_assoc.
Qed.

(** Scenario C: position (10,10), backend centre (50,50), 45 degrees; the
    position becomes (-40,-40). *)
Lemma offsetForRotation_scenario_C :
  exists w',
    _offsetForRotation 0 45 (Sample.world Sample.surface 45 10 10) = Return tt w' /\
    center (Sample.world Sample.surface 45 10 10) = mkPoint 50 50 /\
    positionOf 0 w' = Some (mkPoint (-40) (-40)) /\
    context (drawer w') =
      Some (mkContext [Translate 50 50; Rotate (Js.Math_PI / 180 * 45)%float] [[]]).
Proof.
  destruct (offsetForRotation_enters 0 45 (Sample.world Sample.surface 45 10 10)
              (mkContext [] []) (Sample.tileAt 10 10) eq_refl eq_refl)
    as (w' & Hrun & Hpos & _ & Hctx).
  exists w'. split; [exact Hrun|]. split; [reflexivity|]. split; [exact Hpos | exact Hctx].
Defined.

(** C3: the round trip does not give every position back.  With the
    backend centre at (50,50) a tile at (0.1, 0.1) comes out of
    [_offsetForRotation] followed by [_restoreRotationChanges] at a
    position that differs from (0.1, 0.1) in both coordinates
    (0.10000000000000142 in place of 0.1): subtracting the centre rounds,
    and adding it back does not undo the rounding. *)
Theorem rotation_roundtrip_drifts :
  exists w' q,
    (_offsetForRotation 0 45 ;; _restoreRotationChanges 0)
      (Sample.world Sample.surface 45 0x1.999999999999ap-4 0x1.999999999999ap-4)
      = Return tt w' /\
    center w' = mkPoint 50 50 /\
    positionOf 0 w' = Some q /\
    Js.strict_eq (x q) 0x1.999999999999ap-4 = false /\
    Js.strict_eq (y q) 0x1.999999999999ap-4 = false /\
    Js.strict_eq (x q - 0x1.999999999999ap-4) 0x1.98p-50 = true /\
    positionOf 0 w' <>
      positionOf 0 (Sample.world Sample.surface 45 0x1.999999999999ap-4 0x1.999999999999ap-4).
Proof.
  eexists. eexists. split; [vm_compute; reflexivity|].
  split; [vm_compute; reflexivity|].
  split; [vm_compute; reflexivity|].
  repeat split; try (vm_compute; reflexivity).
  intro H. apply (f_equal (fun o => match o with
                                    | Some p => Js.strict_eq (x p) 0x1.999999999999ap-4
                                    | None => true
                                    end)) in H.
  vm_compute in H. discriminate.
Qed.

(** ** Drawing one tile *)

Section DrawTile.

Variable raiseEvent : string -> DrawingArgs -> M unit.

Local Abbreviation handler := (_drawingHandler raiseEvent).

Lemma drawTile_rotated (tile : TileId) (w : World) :
  useCanvas (drawer w) = true ->
  Js.strict_neq (degrees (viewport w)) 0 = true ->
  drawTile raiseEvent tile w =
    (_offsetForRotation tile (degrees (viewport w)) ;;
     tile_drawCanvas tile handler ;;
     _restoreRotationChanges tile) w.
Proof.
  intros Hu Hd. unfold drawTile. unfold bind at 1, get. rewrite Hu, Hd. reflexivity.
Qed.

Lemma drawTile_unrotated (tile : TileId) (w : World) :
  useCanvas (drawer w) = true ->
  Js.strict_neq (degrees (viewport w)) 0 = false ->
  drawTile raiseEvent tile w = tile_drawCanvas tile handler w.
Proof.
  intros Hu Hd. unfold drawTile. unfold bind at 1, get. rewrite Hu, Hd. reflexivity.
Qed.

Lemma drawTile_nodes (tile : TileId) (w : World) :
  useCanvas (drawer w) = false ->
  drawTile raiseEvent tile w = tile_drawHTML tile w.
Proof.
  intros Hu. unfold drawTile. unfold bind at 1, get. rewrite Hu. reflexivity.
Qed.


(** *** What the draw calls leave in the trace and on the tile *)

Lemma offsetForRotation_trace (tile : TileId) (D : float) (w : World) :
  trace (final (_offsetForRotation tile D w)) = trace w.
Proof.
  unfold _offsetForRotation. run.
  destruct (tiles w !! tile) as [t|] eqn:Ht; cbn; [|reflexivity].
  destruct (context (drawer w)) as [c|]; cbn; [|reflexivity].
  rewrite Ht. reflexivity.
Qed.

Lemma restoreRotationChanges_trace (tile : TileId) (w : World) :
  trace (final (_restoreRotationChanges tile w)) = trace w.
Proof.
  unfold _restoreRotationChanges. run.
  destruct (tiles w !! tile) as [t|] eqn:Ht; cbn; [|reflexivity].
  rewrite Ht. cbn.
  destruct (context (drawer w)) as [c|]; reflexivity.
Qed.

Lemma drawHTML_trace (tile : TileId) (w : World) :
  trace (final (tile_drawHTML tile w)) = trace w.
Proof.
  unfold tile_drawHTML. run. destruct (tiles w !! tile); reflexivity.
Qed.

Lemma drawHTML_placement (tile : TileId) (w : World) :
  placement tile (final (tile_drawHTML tile w)) = placement tile w.
Proof.
  unfold tile_drawHTML. run. destruct (tiles w !! tile); reflexivity.
Qed.

Lemma drawingHandler_run (a : DrawingArgs) (w : World) :
  handler a w =
    match viewer (drawer w) with
    | Some _ => raiseEvent "tile-drawing" a (record (DrawingHandler a) w)
    | None => Return tt (record (DrawingHandler a) w)
    end.
Proof. unfold _drawingHandler. run. destruct (viewer (drawer w)); reflexivity. Qed.

Lemma drawingHandler_trace (a : DrawingArgs) (w : World) :
  (forall n a w0, exists l, trace (final (raiseEvent n a w0)) = trace w0 ++ l) ->
  exists l, trace (final (handler a w)) = trace w ++ DrawingHandler a :: l.
Proof.
  intros Hext. rewrite drawingHandler_run. destruct (viewer (drawer w)).
  - destruct (Hext "tile-drawing" a (record (DrawingHandler a) w)) as [l Hl].
    exists l. rewrite Hl. cbn. now rewrite <- app_assoc.
  - exists []. reflexivity.
Qed.

Lemma drawingHandler_placement (tile : TileId) (a : DrawingArgs) (w : World) :
  (forall n a w0, placement tile (final (raiseEvent n a w0)) = placement tile w0) ->
  placement tile (final (handler a w)) = placement tile w.
Proof.
  intros Hframe. rewrite drawingHandler_run. destruct (viewer (drawer w)); [|reflexivity].
  now rewrite Hframe.
Qed.

Lemma drawCanvas_trace (tile : TileId) (w w' : World) :
  (forall n a w0, exists l, trace (final (raiseEvent n a w0)) = trace w0 ++ l) ->
  tile_drawCanvas tile handler w = Return tt w' ->
  exists a l, arg_tile a = tile /\ trace w' = trace w ++ DrawingHandler a :: l.
Proof.
  intros Hext. unfold tile_drawCanvas. cbv [bind getTile].
  destruct (tiles w !! tile) as [t|]; [|discriminate].
  destruct (drawingHandler_trace (mkDrawingArgs tile (image t)) w Hext) as [l Hl].
  destruct (handler (mkDrawingArgs tile (image t)) w) as [[] wm|e wm]; [|discriminate].
  cbn in Hl.
  destruct (tiles wm !! tile) as [t'|]; [|discriminate].
  run. destruct (context (drawer wm)); cbn; [|discriminate].
  intros [= <-]. exists (mkDrawingArgs tile (image t)), (l ++ [DrawImage (image t') (position t') (size t')]).
  split; [reflexivity|]. cbn. rewrite Hl, <- app_assoc. reflexivity.
Qed.

Lemma drawCanvas_placement (tile : TileId) (w : World) :
  (forall n a w0, placement tile (final (raiseEvent n a w0)) = placement tile w0) ->
  placement tile (final (tile_drawCanvas tile handler w)) = placement tile w.
Proof.
  intros Hframe. unfold tile_drawCanvas. cbv [bind getTile].
  destruct (tiles w !! tile) as [t|]; [|reflexivity].
  pose proof (drawingHandler_placement tile (mkDrawingArgs tile (image t)) w Hframe) as Hhook.
  destruct (handler (mkDrawingArgs tile (image t)) w) as [[] wm|e wm];
    cbn in Hhook; [|exact Hhook].
  destruct (tiles wm !! tile) as [t'|]; [|exact Hhook].
  run. destruct (context (drawer wm)); cbn; exact Hhook.
Qed.

(** C7: the draw hook [_drawingHandler] is invoked on the canvas variant
    and only there.  On the canvas variant every [drawTile] that returns
    normally, rotated or not, has entered [_drawingHandler] for the tile
    (the handlers of the application, being outside code, are taken only
    to add to the trace).  On the div variant [drawTile] never enters it:
    the trace is left as it was. *)
Theorem drawTile_hook_only_on_canvas (tile : TileId) (w : World) :
  (forall n a w0, exists l, trace (final (raiseEvent n a w0)) = trace w0 ++ l) ->
  (useCanvas (drawer w) = true ->
   forall w', drawTile raiseEvent tile w = Return tt w' ->
     exists a l, arg_tile a = tile /\ trace w' = trace w ++ DrawingHandler a :: l) /\
  (useCanvas (drawer w) = false ->
   trace (final (drawTile raiseEvent tile w)) = trace w /\
   hookCalls (trace (final (drawTile raiseEvent tile w))) = hookCalls (trace w)).
Proof.
  intros Hext. split.
  - intros Hu w'.
    destruct (Js.strict_neq (degrees (viewport w)) 0) eqn:Hd.
    + rewrite (drawTile_rotated tile w Hu Hd). unfold bind.
      pose proof (offsetForRotation_trace tile (degrees (viewport w)) w) as H1.
      destruct (_offsetForRotation tile (degrees (viewport w)) w) as [[] w1|]; [|discriminate].
      destruct (tile_drawCanvas tile handler w1) as [[] w2|] eqn:Hdraw; [|discriminate].
      destruct (drawCanvas_trace tile w1 w2 Hext Hdraw) as (a & l & Ha & Hl).
      pose proof (restoreRotationChanges_trace tile w2) as H2.
      intros Hexit. rewrite Hexit in H2. cbn in H1, H2.
      exists a, l. split; [exact Ha|]. congruence.
    + rewrite (drawTile_unrotated tile w Hu Hd). apply drawCanvas_trace, Hext.
  - intros Hu. rewrite (drawTile_nodes tile w Hu).
    rewrite drawHTML_trace. split; reflexivity.
Qed.

(** C10: a [drawTile] that does not take the rotation path leaves the
    tile's position and size as they were.  On the div variant this holds
    outright; on the canvas variant with [viewport.degrees] equal to 0 it
    holds as long as the handlers of the application, which run inside
    the draw, do not move or resize the tile themselves.  [drawTile]
    writes the position nowhere but in the enter and exit steps. *)
Theorem drawTile_unrotated_keeps_placement (tile : TileId) (w : World) :
  (useCanvas (drawer w) = false ->
   placement tile (final (drawTile raiseEvent tile w)) = placement tile w) /\
  (useCanvas (drawer w) = true ->
   Js.strict_neq (degrees (viewport w)) 0 = false ->
   (forall n a w0, placement tile (final (raiseEvent n a w0)) = placement tile w0) ->
   placement tile (final (drawTile raiseEvent tile w)) = placement tile w).
Proof.
  split.
  - intros Hu. rewrite (drawTile_nodes tile w Hu). apply drawHTML_placement.
  - intros Hu Hd Hframe. rewrite (drawTile_unrotated tile w Hu Hd).
    apply drawCanvas_placement, Hframe.
Qed.

End DrawTile.



Lemma quiet_extends_trace (n : string) (a : DrawingArgs) (w0 : World) :
  exists l, trace (final (Sample.quiet n a w0)) = trace w0 ++ l.
Proof. exists []. cbn. now rewrite app_nil_r. Qed.

(** On the canvas variant under 45 degrees the hook is entered for tile 0;
    on the div variant the trace stays empty. *)
Lemma drawTile_hook_sample :
  (exists w' a l,
     drawTile Sample.quiet 0 (Sample.world Sample.surface 45 10 10) = Return tt w' /\
     arg_tile a = 0 /\ trace w' = [] ++ DrawingHandler a :: l) /\
  trace (final (drawTile Sample.quiet 0 (Sample.world Sample.nodes 0 10 10))) = [].
Proof.
  split.
  - destruct (drawTile_hook_only_on_canvas Sample.quiet 0
                (Sample.world Sample.surface 45 10 10) quiet_extends_trace) as [Hc _].
    destruct (Hc eq_refl
                (final (drawTile Sample.quiet 0 (Sample.world Sample.surface 45 10 10)))
                ltac:(vm_compute; reflexivity)) as (a & l & Ha & Hl).
    exists (final (drawTile Sample.quiet 0 (Sample.world Sample.surface 45 10 10))), a, l.
    split; [vm_compute; reflexivity|]. split; [exact Ha | exact Hl].
  - destruct (drawTile_hook_only_on_canvas Sample.quiet 0
                (Sample.world Sample.nodes 0 10 10) quiet_extends_trace) as [_ Hn].
    exact (proj1 (Hn eq_refl)).
Defined.

(** An unrotated draw, on either variant, leaves tile 0 at (10,10) with
    size (256,256). *)
Lemma drawTile_unrotated_sample :
  placement 0 (final (drawTile Sample.quiet 0 (Sample.world Sample.nodes 0 10 10)))
    = Some (mkPoint 10 10, mkPoint 256 256) /\
  placement 0 (final (drawTile Sample.quiet 0 (Sample.world Sample.surface 0 10 10)))
    = Some (mkPoint 10 10, mkPoint 256 256).
Proof.
  split.
  - rewrite (proj1 (drawTile_unrotated_keeps_placement Sample.quiet 0
                      (Sample.world Sample.nodes 0 10 10)) eq_refl).
    reflexivity.
  - rewrite (proj2 (drawTile_unrotated_keeps_placement Sample.quiet 0
                      (Sample.world Sample.surface 0 10 10)) eq_refl eq_refl
                   (fun _ _ _ => eq_refl)).
    reflexivity.
Defined.

(** ** Clearing the surface *)

Opaque canvasDimension.

(** C6, as the code has it: on the canvas variant [clear] returns
    normally.  It writes the canvas dimensions only when the container
    size reported by the viewport differs from them ([!=] on either
    dimension); the canvas then takes the container size converted to an
    unsigned long, and the writes reset the drawing context.  When the
    dimensions match they are not written, and dimensions and context
    stay as they were.  In both cases the last thing it does is
    [clearRect(0, 0, viewportSize.x, viewportSize.y)]: under the identity
    transformation after a write, under the transformation in force
    otherwise. *)
Theorem clear_resizes_only_on_change (w : World) (c : Context) :
  useCanvas (drawer w) = true ->
  context (drawer w) = Some c ->
  let viewportSize := getContainerSize (viewport w) in
  exists w',
    clear w = Return tt w' /\
    if Js.neq (width (canvas (drawer w))) (x viewportSize) ||
       Js.neq (height (canvas (drawer w))) (y viewportSize)
    then
      width (canvas (drawer w')) = canvasDimension 300 (x viewportSize) /\
      height (canvas (drawer w')) = canvasDimension 150 (y viewportSize) /\
      context (drawer w') = Some (mkContext [] []) /\
      trace w' = trace w ++ [SetCanvasWidth (x viewportSize);
                             SetCanvasHeight (y viewportSize);
                             ClearRect [] 0 0 (x viewportSize) (y viewportSize)]
    else
      width (canvas (drawer w')) = width (canvas (drawer w)) /\
      height (canvas (drawer w')) = height (canvas (drawer w)) /\
      context (drawer w') = Some c /\
      trace w' = trace w ++ [ClearRect (current c) 0 0 (x viewportSize) (y viewportSize)].
Proof.
  intros Hu Hc. cbv zeta. unfold clear. run. rewrite Hu.
  destruct (Js.neq (width (canvas (drawer w))) (x (containerSize (viewport w))) ||
            Js.neq (height (canvas (drawer w))) (y (containerSize (viewport w)))); cbn.
  - repeat (first [rewrite Hu | rewrite Hc]; cbn).
    eexists. split; [reflexivity|]. cbn. rewrite <- !app_assoc. repeat split.
  - unfold transformation. repeat (first [rewrite Hu | rewrite Hc]; cbn).
    eexists. split; [reflexivity|]. cbn. repeat split.
Qed.

(** A 100x100 canvas in a 100x100 container is not resized; in a
    200.5x100 container it is, to 200x100. *)
Lemma clear_sample :
  (exists w', clear (Sample.world Sample.surface 0 10 10) = Return tt w' /\
     width (canvas (drawer w')) = 100%float /\ height (canvas (drawer w')) = 100%float /\
     trace w' = [ClearRect [] 0 0 100 100]) /\
  (exists w',
     clear (mkWorld Sample.surface (mkViewport 0 (mkPoint 200.5 100)) ∅ 0 []) = Return tt w' /\
     width (canvas (drawer w')) = 200%float /\ height (canvas (drawer w')) = 100%float /\
     context (drawer w') = Some (mkContext [] []) /\
     trace w' = [SetCanvasWidth 200.5; SetCanvasHeight 100; ClearRect [] 0 0 200.5 100]).
Proof.
  split.
  - destruct (clear_resizes_only_on_change (Sample.world Sample.surface 0 10 10)
                (mkContext [] []) eq_refl eq_refl) as (w' & Hrun & H).
    exists w'. split; [exact Hrun|]. vm_compute in H.
    destruct H as (Hw & Hh & _ & Ht). repeat split; assumption.
  - destruct (clear_resizes_only_on_change
                (mkWorld Sample.surface (mkViewport 0 (mkPoint 200.5 100)) ∅ 0 [])
                (mkContext [] []) eq_refl eq_refl) as (w' & Hrun & H).
    exists w'. split; [exact Hrun|]. vm_compute in H. exact H.
Defined.

(** C6 fails on what [clearRect] clears.  After a rotated draw whose
    handler threw, the context is still translated to (50,50) and rotated
    by 45 degrees.  The canvas matches the container, so [clear] writes no
    dimension and the context is not reset: [clearRect(0, 0, 100, 100)] is
    issued under that transformation and clears a rotated square around
    the centre, not the container rectangle. *)
Lemma clear_under_leftover_rotation :
  exists w',
    clear (final (drawTile Sample.failing 0 (Sample.world Sample.surface 45 10 10)))
      = Return tt w' /\
    trace w' = [DrawingHandler (mkDrawingArgs 0 (Some 7));
                ClearRect [Translate 50 50; Rotate (Js.Math_PI / 180 * 45)%float]
                          0 0 100 100] /\
    ClearRect [Translate 50 50; Rotate (Js.Math_PI / 180 * 45)%float] 0 0 100 100
      <> ClearRect [] 0 0 100 100.
Proof.
  eexists. split; [vm_compute; reflexivity|]. split; [vm_compute; reflexivity|].
  discriminate.
Qed.

(** ** Who writes the re-entrancy guard *)

Lemma preserves_bind {A B C} (f : World -> A) (m : M B) (k : B -> M C) :
  preserves f m -> (forall b, preserves f (k b)) -> preserves f (bind m k).
Proof.
  intros Hm Hk w. unfold bind. specialize (Hm w).
  destruct (m w) as [b w'|e w']; cbn in *; [|exact Hm].
  now rewrite Hk.
Qed.

Lemma preserves_ret {A B} (f : World -> A) (b : B) : preserves f (ret b).
Proof. intros w. reflexivity. Qed.

Lemma preserves_throw {A B} (f : World -> A) (e : Error) : preserves f (@throw B e).
Proof. intros w. reflexivity. Qed.

Lemma preserves_get {A} (f : World -> A) : preserves f get.
Proof. intros w. reflexivity. Qed.

Lemma preserves_modify {A} (f : World -> A) (g : World -> World) :
  (forall w, f (g w) = f w) -> preserves f (modify g).
Proof. intros Hg w. apply Hg. Qed.

Lemma guard_getTile (tile : TileId) : preserves guard (getTile tile).
Proof. intros w. unfold getTile. destruct (tiles w !! tile); reflexivity. Qed.

Lemma guard_withContext (f : Context -> Context) : preserves guard (withContext f).
Proof. intros w. unfold withContext. destruct (context (drawer w)); reflexivity. Qed.

Create HintDb guard_frame.

#[local] Hint Resolve preserves_ret preserves_throw preserves_get guard_getTile
  guard_withContext : guard_frame.

Ltac frame :=
  repeat first
    [ apply preserves_bind; [|intro]
    | apply preserves_modify; intro; reflexivity
    | solve [auto with guard_frame]
    | match goal with
      | |- preserves _ (if ?b then _ else _) => destruct b
      | |- preserves _ (match ?o with Some _ => _ | None => _ end) => destruct o
      end ].

Lemma guard_setPosition (tile : TileId) (p : Point) : preserves guard (setPosition tile p).
Proof. unfold setPosition. frame. Qed.






Lemma guard_unload (tile : TileId) : preserves guard (tile_unload tile).
Proof. unfold tile_unload. frame. Qed.



Lemma guard_destroy_loop (fuel : nat) :
  forall (i : nat) (w : World) (o : Outcome unit),
    destroy_loop fuel i w = Some o -> guard (final o) = guard w.
Proof.
  induction fuel as [|fuel IH]; intros i w o; cbn [destroy_loop]; [discriminate|].
  destruct (tilesLoaded (drawer w) !! i) as [tile|]; [|intros [= <-]; reflexivity].
  pose proof (guard_unload tile w) as Hu.
  destruct (tile_unload tile w) as [[] w1|e w1]; cbn in Hu.
  - intros Ho. rewrite (IH _ _ _ Ho). exact Hu.
  - intros [= <-]. exact Hu.
Qed.

Lemma guard_destroy (fuel : nat) (w : World) (o : Outcome unit) :
  destroy fuel w = Some o -> guard (final o) = guard w.
Proof.
  unfold destroy. destruct (destroy_loop fuel 0 w) as [[[] w1|e w1]|] eqn:Hloop;
    [|intros [= <-]; exact (guard_destroy_loop _ _ _ _ Hloop)|discriminate].
  intros [= <-].
  assert (Hdim : preserves guard (setCanvasWidth 1 ;; setCanvasHeight 1))
    by (unfold setCanvasWidth, setCanvasHeight; frame).
  rewrite Hdim. exact (guard_destroy_loop _ _ _ _ Hloop).
Qed.


(** ** One frame *)

Section Update.

Variable updateViewport : M unit.

Lemma update_run (w : World) :
  update updateViewport w =
    match updateViewport (guarded w) with
    | Return _ w' => Return tt (with_drawer (set_midUpdate false) w')
    | Throw e w' => Throw e w'
    end.
Proof. unfold update. run. destruct (updateViewport _); reflexivity. Qed.

Lemma guarded_overwrites (b : bool) (w : World) :
  guarded (with_drawer (set_midUpdate b) w) = guarded w.
Proof. reflexivity. Qed.

(** C2, as the code has it: a call to [update] made while [midUpdate] is
    true is not detected.  [update] never reads the guard: the call does
    exactly what it would do had the guard been false.  It sets the
    guard, runs the frame body, and when that returns normally it clears
    the guard and returns normally; it throws only what the frame body
    throws. *)
Theorem update_nested_runs (w : World) :
  midUpdate (drawer w) = true ->
  update updateViewport w =
    update updateViewport (with_drawer (set_midUpdate false) w) /\
  (forall w', updateViewport (guarded w) = Return tt w' ->
              update updateViewport w = Return tt (with_drawer (set_midUpdate false) w')) /\
  (forall e w', update updateViewport w = Throw e w' ->
                updateViewport (guarded w) = Throw e w').
Proof.
  intros _. rewrite !update_run, guarded_overwrites. split; [reflexivity|]. split.
  - intros w' ->. reflexivity.
  - intros e w'. destruct (updateViewport (guarded w)) as [[] w1|e1 w1]; [discriminate|].
    intros [= -> ->]. reflexivity.
Qed.


End Update.

(** A nested call, made with the guard set, runs the frame and returns. *)
Lemma update_nested_sample :
  exists w',
    update (Sample.frame Sample.quiet) (guarded (Sample.world Sample.surface 45 10 10))
      = Return tt w' /\
    midUpdate (drawer w') = false /\
    trace w' = [ClearRect [] 0 0 100 100;
                DrawingHandler (mkDrawingArgs 0 (Some 7));
                DrawImage (Some 7) (mkPoint (-40) (-40)) (mkPoint 256 256)].
Proof.
  destruct (update_nested_runs (Sample.frame Sample.quiet)
              (guarded (Sample.world Sample.surface 45 10 10)) eq_refl) as (_ & Hret & _).
  eexists. split.
  - apply Hret. vm_compute. reflexivity.
  - split; vm_compute; reflexivity.
Defined.

(** C2 fails: a call to [update] made with [midUpdate] true returns
    normally, and so does scenario D.  There the application's handler
    calls [update] from inside the draw hook, while the outer [update] is
    running with [midUpdate] true.  Nothing is raised: the outer call
    returns normally,
    and the trace shows the nested frame (a second clear, issued under the
    rotation the outer draw has entered, a second entry into the hook and
    a draw of the tile, at the doubly shifted position (-90,-90)) carried
    out in the middle of the outer one.  When the outer
    frame body returns, the guard has already been cleared by the nested
    call. *)
Lemma update_reentry_undetected :
  exists w' w1 w2,
    midUpdate (drawer (guarded (Sample.world Sample.surface 45 10 10))) = true /\
    update (Sample.frame Sample.quiet) (guarded (Sample.world Sample.surface 45 10 10))
      = Return tt w2 /\
    update (Sample.frame Sample.reentrant) (Sample.world Sample.surface 45 10 10)
      = Return tt w' /\
    trace w' = [ClearRect [] 0 0 100 100;
                DrawingHandler (mkDrawingArgs 0 (Some 7));
                ClearRect [Translate 50 50; Rotate (Js.Math_PI / 180 * 45)%float]
                          0 0 100 100;
                DrawingHandler (mkDrawingArgs 0 (Some 7));
                DrawImage (Some 7) (mkPoint (-90) (-90)) (mkPoint 256 256);
                DrawImage (Some 7) (mkPoint (-40) (-40)) (mkPoint 256 256)] /\
    Sample.frame Sample.reentrant (guarded (Sample.world Sample.surface 45 10 10))
      = Return tt w1 /\
    midUpdate (drawer w1) = false.
Proof.
  eexists. eexists. eexists. split; [reflexivity|].
  split; [vm_compute; reflexivity|].
  split; [vm_compute; reflexivity|].
  split; [vm_compute; reflexivity|].
  split; vm_compute; reflexivity.
Qed.



(** ** Unloading tiles *)

Lemma tile_unload_run (tile : TileId) (w : World) (t : Tile) :
  tiles w !! tile = Some t ->
  tile_unload tile w =
    Return tt (with_tiles (insert tile (mkTile (position t) (size t) false None)) w).
Proof. intros Ht. unfold tile_unload. run. rewrite Ht. reflexivity. Qed.

Lemma unloaded_here (tile : TileId) (w : World) (p s : Point) :
  unloaded tile (with_tiles (insert tile (mkTile p s false None)) w).
Proof. eexists. cbn. rewrite lookup_insert_eq. repeat split. Qed.

Lemma unloaded_stays (tile other : TileId) (w : World) (p s : Point) :
  unloaded other w ->
  unloaded other (with_tiles (insert tile (mkTile p s false None)) w).
Proof.
  intros Hu. destruct (decide (other = tile)) as [->|Hne]; [apply unloaded_here|].
  destruct Hu as (t & Ht & Hl & Hi). exists t. cbn.
  rewrite lookup_insert_ne by congruence. auto.
Qed.

Lemma alive_stays (tile other : TileId) (w : World) (t : Tile) :
  is_Some (tiles w !! other) ->
  is_Some (tiles (with_tiles (insert tile t) w) !! other).
Proof.
  intros Hs. cbn. destruct (decide (other = tile)) as [->|Hne].
  - rewrite lookup_insert_eq. eauto.
  - rewrite lookup_insert_ne by congruence. exact Hs.
Qed.

(** The loop of [destroy] from round [i] on, given rounds enough: it
    returns normally, touches nothing but the tiles, and has unloaded
    every tile from index [i] on. *)
Lemma destroy_loop_run (fuel : nat) :
  forall (i : nat) (w : World),
    live w ->
    length (tilesLoaded (drawer w)) - i < fuel ->
    exists w',
      destroy_loop fuel i w = Some (Return tt w') /\
      drawer w' = drawer w /\ viewport w' = viewport w /\
      clock w' = clock w /\ trace w' = trace w /\
      (forall tile, tile ∈ drop i (tilesLoaded (drawer w)) -> unloaded tile w') /\
      (forall tile, unloaded tile w -> unloaded tile w') /\
      (forall tile, is_Some (tiles w !! tile) -> is_Some (tiles w' !! tile)).
Proof.
  induction fuel as [|fuel IH]; intros i w Hlive Hfuel; [lia|].
  cbn [destroy_loop].
  destruct (tilesLoaded (drawer w) !! i) as [tile|] eqn:Hi.
  - destruct (Hlive tile) as [t Ht]; [eapply list_elem_of_lookup_2; eauto|].
    rewrite (tile_unload_run tile w t Ht).
    set (w1 := with_tiles (insert tile (mkTile (position t) (size t) false None)) w).
    assert (Hlen : i < length (tilesLoaded (drawer w))) by (eapply lookup_lt_Some; eauto).
    destruct (IH (S i) w1) as (w' & Hrun & Hd & Hv & Hc & Htr & Hun & Hkeep & Hdom).
    { intros t0 Ht0. apply alive_stays, Hlive, Ht0. }
    { cbn. lia. }
    exists w'. split; [exact Hrun|]. repeat split; try assumption.
    + intros t0 Ht0. rewrite (drop_S _ _ _ Hi) in Ht0.
      apply elem_of_cons in Ht0 as [->|Ht0].
      * apply Hkeep, unloaded_here.
      * apply Hun, Ht0.
    + intros t0 Ht0. apply Hkeep, unloaded_stays, Ht0.
    + intros t0 Ht0. apply Hdom, alive_stays, Ht0.
  - exists w. split; [reflexivity|]. repeat split; auto.
    intros t0 Ht0. apply lookup_ge_None_1 in Hi.
    rewrite drop_ge in Ht0 by exact Hi. inversion Ht0.
Qed.

(** ** Destroying the drawer *)

Lemma canvasDimension_one : canvasDimension 300 1 = 1%float /\ canvasDimension 150 1 = 1%float.
Proof. split; vm_compute; reflexivity. Qed.

(** The two writes that end [destroy]. *)
Lemma shrink_run (w : World) :
  (setCanvasWidth 1 ;; setCanvasHeight 1) w =
    Return tt (mkWorld (destroyed (drawer w)) (viewport w) (tiles w) (clock w)
                       (trace w ++ [SetCanvasWidth 1; SetCanvasHeight 1])).
Proof.
  unfold setCanvasWidth, setCanvasHeight, destroyed. cbv [bind get modify]. cbn.
  destruct (useCanvas (drawer w)) eqn:Hu; cbn; rewrite ?Hu; cbn.
  - destruct canvasDimension_one as [-> ->]. unfold record, with_drawer, resetContext. cbn.
    rewrite <- app_assoc. destruct (context (drawer w)); reflexivity.
  - unfold record, with_drawer. cbn. rewrite <- app_assoc. reflexivity.
Qed.

(** C4, as the code has it: given rounds enough for its loop (more than
    there are entries in [tilesLoaded]), [destroy] returns normally; every
    tile referenced from [tilesLoaded] has then been unloaded (its image
    released), and the canvas is 1 by 1.  [tilesMatrix], [coverage],
    [tilesLoaded] and [lastDrawn] are left exactly as they were, so
    [numTilesLoaded] returns what it returned before. *)
Theorem destroy_unloads_and_shrinks (fuel : nat) (w : World) :
  live w ->
  length (tilesLoaded (drawer w)) < fuel ->
  exists w',
    destroy fuel w = Some (Return tt w') /\
    (forall tile, tile ∈ tilesLoaded (drawer w) -> unloaded tile w') /\
    width (canvas (drawer w')) = 1%float /\
    height (canvas (drawer w')) = 1%float /\
    cacheState w' = cacheState w /\
    numTilesLoaded w' = numTilesLoaded w.
Proof.
  intros Hlive Hfuel.
  destruct (destroy_loop_run fuel 0 w Hlive ltac:(lia))
    as (w1 & Hrun & Hd & _ & _ & _ & Hun & _ & _).
  unfold destroy. rewrite Hrun, shrink_run. eexists. split; [reflexivity|].
  unfold cacheState, numTilesLoaded, destroyed. cbn. rewrite Hd.
  split; [|destruct (useCanvas (drawer w)); repeat split].
  intros tile Ht. destruct (Hun tile Ht) as (t & Hlk & Hl & Hi).
  exists t. cbn. auto.
Qed.

(** A drawer with one loaded tile: after [destroy] the tile has no image
    and the canvas is 1 by 1. *)
Lemma destroy_sample :
  exists w',
    destroy 2 Sample.busy = Some (Return tt w') /\
    tiles w' !! 0 = Some (mkTile (mkPoint 10 10) (mkPoint 256 256) false None) /\
    width (canvas (drawer w')) = 1%float /\
    height (canvas (drawer w')) = 1%float.
Proof.
  assert (Hlive : live Sample.busy).
  { intros tile Ht. apply list_elem_of_singleton in Ht as ->. vm_compute. eauto. }
  destruct (destroy_unloads_and_shrinks 2 Sample.busy Hlive ltac:(vm_compute; lia))
    as (w' & Hrun & _ & Hw & Hh & _).
  exists w'. split; [exact Hrun|]. split; [|split; assumption].
  vm_compute in Hrun. injection Hrun as <-. vm_compute. reflexivity.
Defined.

(** C4 fails on the cache structures.  After [destroy] on a drawer whose
    four cache structures each hold tile 0, all four still hold it and
    [numTilesLoaded] returns 1, not 0. *)
Lemma destroy_keeps_cache :
  exists w',
    destroy 2 Sample.busy = Some (Return tt w') /\
    numTilesLoaded w' = 1 /\
    tilesLoaded (drawer w') = [0] /\
    lastDrawn (drawer w') = [0] /\
    tilesMatrix (drawer w') !! 2 = Some {[ 1 := {[ 1 := 0 ]} ]} /\
    coverage (drawer w') !! 2 = Some {[ 1 := {[ 1 := true ]} ]}.
Proof.
  eexists. split; [vm_compute; reflexivity|].
  repeat split; vm_compute; reflexivity.
Qed.

(** ** Resetting the drawer *)

Lemma unloadAll_run (l : list TileId) :
  forall w : World,
    (forall tile, tile ∈ l -> is_Some (tiles w !! tile)) ->
    exists w',
      unloadAll l w = Return tt w' /\
      drawer w' = drawer w /\ viewport w' = viewport w /\
      clock w' = clock w /\ trace w' = trace w /\
      (forall tile, tile ∈ l -> unloaded tile w') /\
      (forall tile, unloaded tile w -> unloaded tile w') /\
      (forall tile, is_Some (tiles w !! tile) -> is_Some (tiles w' !! tile)).
Proof.
  induction l as [|tile l IH]; intros w Hlive.
  - exists w. split; [reflexivity|]. repeat split; auto. intros t0 Ht0. inversion Ht0.
  - destruct (Hlive tile) as [t Ht]; [left|].
    cbn [unloadAll]. unfold bind. rewrite (tile_unload_run tile w t Ht).
    destruct (IH (with_tiles (insert tile (mkTile (position t) (size t) false None)) w))
      as (w' & Hrun & Hd & Hv & Hc & Htr & Hun & Hkeep & Hdom).
    { intros t0 Ht0. apply alive_stays, Hlive. now right. }
    exists w'. split; [exact Hrun|]. repeat split; try assumption.
    + intros t0 Ht0. apply elem_of_cons in Ht0 as [->|Ht0].
      * apply Hkeep, unloaded_here.
      * apply Hun, Ht0.
    + intros t0 Ht0. apply Hkeep, unloaded_stays, Ht0.
    + intros t0 Ht0. apply Hdom, alive_stays, Ht0.
Qed.

(** What [reset] makes of the drawer's fields. *)
Lemma reset_run (w : World) :
  reset w =
    match unloadAll (tilesLoaded (drawer w)) w with
    | Return _ w' =>
        Return tt
          (with_drawer (fun d =>
             set_updateAgain true
               (set_lastResetTime (clock w')
                  (set_lastDrawn [] (set_tilesLoaded [] (set_coverage ∅ (set_tilesMatrix ∅ d))))))
             w')
    | Throw e w' => Throw e w'
    end.
Proof.
  unfold reset, clearTiles. run.
  destruct (unloadAll (tilesLoaded (drawer w)) w); reflexivity.
Qed.

(** C8: [reset] returns normally and leaves [tilesMatrix], [coverage],
    [tilesLoaded] and [lastDrawn] empty, so that [numTilesLoaded] is 0
    right after it; a second [reset], whatever time has passed in between,
    leaves the same empty cache state, and the tiles as the first one left
    them. *)
Theorem reset_idempotent (w : World) (dt : Z) :
  live w ->
  exists w1 w2,
    reset w = Return tt w1 /\
    reset (tick dt w1) = Return tt w2 /\
    cacheState w1 = emptyCache /\
    numTilesLoaded w1 = 0 /\
    cacheState w2 = cacheState w1 /\
    numTilesLoaded w2 = 0 /\
    tiles w2 = tiles w1 /\
    (forall tile, tile ∈ tilesLoaded (drawer w) -> unloaded tile w1).
Proof.
  intros Hlive.
  destruct (unloadAll_run (tilesLoaded (drawer w)) w Hlive)
    as (w' & Hrun & Hd & _ & _ & _ & Hun & _ & _).
  eexists. eexists. split; [rewrite reset_run, Hrun; reflexivity|].
  split; [rewrite reset_run; cbn; reflexivity|].
  repeat split. exact Hun.
Qed.

(** Two resets of a drawer whose caches are populated, five seconds
    apart. *)
Lemma reset_sample :
  exists w1 w2,
    reset Sample.busy = Return tt w1 /\
    reset (tick 5000 w1) = Return tt w2 /\
    cacheState w1 = emptyCache /\ cacheState w2 = emptyCache /\
    numTilesLoaded w1 = 0 /\ numTilesLoaded w2 = 0 /\
    lastResetTime (drawer w1) = 1000%Z /\ lastResetTime (drawer w2) = 6000%Z.
Proof.
  assert (Hlive : live Sample.busy).
  { intros tile Ht. apply list_elem_of_singleton in Ht as ->. vm_compute. eauto. }
  destruct (reset_idempotent Sample.busy 5000 Hlive)
    as (w1 & w2 & H1 & H2 & Hc1 & Hn1 & Hc2 & Hn2 & _).
  exists w1, w2. split; [exact H1|]. split; [exact H2|].
  split; [exact Hc1|]. split; [congruence|]. split; [exact Hn1|]. split; [exact Hn2|].
  vm_compute in H1. injection H1 as <-.
  vm_compute in H2. injection H2 as <-.
  split; reflexivity.
Defined.

(** * Further properties of the drawer *)

(** ** What the methods leave alone *)

Lemma preserves_getTile {A} (f : World -> A) (tile : TileId) : preserves f (getTile tile).
Proof. intros w. unfold getTile. destruct (tiles w !! tile); reflexivity. Qed.

Lemma preserves_now {A} (f : World -> A) : preserves f now.
Proof. intros w. reflexivity. Qed.

Lemma preserves_withContext {A} (f : World -> A) (g : Context -> Context) :
  (forall w c, context (drawer w) = Some c ->
               f (with_drawer (set_context (Some (g c))) w) = f w) ->
  preserves f (withContext g).
Proof.
  intros Hg w. unfold withContext.
  destruct (context (drawer w)) as [c|] eqn:Hc; [apply Hg, Hc | reflexivity].
Qed.

Ltac keeps_using tac :=
  repeat first
    [ tac
    | apply preserves_bind; [|intro]
    | apply preserves_ret
    | apply preserves_throw
    | apply preserves_get
    | apply preserves_getTile
    | apply preserves_now
    | assumption
    | apply preserves_modify; intro; reflexivity
    | apply preserves_withContext;
      let Hc := fresh "Hc" in
      intros ? ? Hc; cbv [backend hasContext]; cbn; rewrite ?Hc; reflexivity
    | match goal with
      | |- preserves _ (if ?b then _ else _) => destruct b
      | |- preserves _ (match ?o with Some _ => _ | None => _ end) => destruct o
      | H : forall n a, preserves _ (?h n a) |- preserves _ (?h _ _) => apply H
      end ].

Ltac keeps := keeps_using fail.

(** Whatever the loop of [destroy] and the two writes after it leave
    alone, [destroy] leaves alone. *)
Lemma destroy_loop_keeps {A} (f : World -> A) (fuel : nat) :
  (forall tile, preserves f (tile_unload tile)) ->
  forall (i : nat) (w : World) (o : Outcome unit),
    destroy_loop fuel i w = Some o -> f (final o) = f w.
Proof.
  intros Hunload. induction fuel as [|fuel IH]; intros i w o; cbn [destroy_loop]; [discriminate|].
  destruct (tilesLoaded (drawer w) !! i) as [tile|]; [|intros [= <-]; reflexivity].
  pose proof (Hunload tile w) as Hu.
  destruct (tile_unload tile w) as [[] w1|e w1]; cbn in Hu.
  - intros Ho. rewrite (IH _ _ _ Ho). exact Hu.
  - intros [= <-]. exact Hu.
Qed.

Lemma destroy_keeps {A} (f : World -> A) (fuel : nat) (w : World) (o : Outcome unit) :
  (forall tile, preserves f (tile_unload tile)) ->
  (forall v, preserves f (setCanvasWidth v)) ->
  (forall v, preserves f (setCanvasHeight v)) ->
  destroy fuel w = Some o -> f (final o) = f w.
Proof.
  intros Hunload Hw Hh. unfold destroy.
  destruct (destroy_loop fuel 0 w) as [[[] w1|e w1]|] eqn:Hloop; [| |discriminate].
  - intros [= <-]. pose proof (destroy_loop_keeps f fuel Hunload _ _ _ Hloop) as H1.
    cbn in H1. rewrite <- H1. unfold bind.
    pose proof (Hw 1%float w1) as H2. destruct (setCanvasWidth 1 w1) as [[] w2|e w2]; cbn in H2.
    + rewrite <- H2. apply Hh.
    + exact H2.
  - intros [= <-]. exact (destroy_loop_keeps f fuel Hunload _ _ _ Hloop).
Qed.

Lemma backend_unload (tile : TileId) : preserves backend (tile_unload tile).
Proof. unfold tile_unload. keeps. Qed.

Lemma backend_unloadAll (l : list TileId) : preserves backend (unloadAll l).
Proof. induction l; cbn [unloadAll]; keeps. Qed.

Lemma backend_resetContext (w : World) (f : Drawer -> Drawer) :
  backend (with_drawer f w) = backend w ->
  backend (with_drawer (fun d => resetContext (f d)) w) = backend w.
Proof.
  unfold backend, hasContext. cbn. intros [= Hu Hc]. rewrite Hu.
  destruct (context (f (drawer w))); rewrite <- Hc; reflexivity.
Qed.

Lemma backend_setCanvasWidth (v : float) : preserves backend (setCanvasWidth v).
Proof.
  unfold setCanvasWidth. keeps. intros w. cbn. now apply backend_resetContext.
Qed.

Lemma backend_setCanvasHeight (v : float) : preserves backend (setCanvasHeight v).
Proof.
  unfold setCanvasHeight. keeps. intros w. cbn. now apply backend_resetContext.
Qed.

Lemma backend_clear : preserves backend clear.
Proof.
  unfold clear, setInnerHTML, ctx_clearRect.
  keeps_using ltac:(first [apply backend_setCanvasWidth | apply backend_setCanvasHeight]).
Qed.

Lemma backend_reset : preserves backend reset.
Proof. unfold reset, clearTiles. keeps; apply backend_unloadAll. Qed.

Lemma backend_drawTile (raiseEvent : string -> DrawingArgs -> M unit) (tile : TileId) :
  (forall n a, preserves backend (raiseEvent n a)) ->
  preserves backend (drawTile raiseEvent tile).
Proof.
  intros Hr.
  unfold drawTile, _offsetForRotation, _restoreRotationChanges, tile_drawCanvas,
    tile_drawHTML, _drawingHandler, setPosition, setInnerHTML,
    ctx_save, ctx_translate, ctx_rotate, ctx_restore, ctx_drawImage.
  keeps.
Qed.

(** X1: which variant a drawer is never changes.  The constructor gives
    the drawer a 2d context exactly when it decides to use a canvas, and
    none of [clear], [reset], [drawTile], [update] and [destroy] writes
    [useCanvas] or creates or drops the context (as long as the
    application's handlers and the frame body do not): [canRotate()]
    answers the same before and after each of them. *)
Theorem backend_never_changes :
  (forall supportsCanvas options_viewer element vp ts ck tr,
      consistent (mkWorld (newDrawer supportsCanvas options_viewer element) vp ts ck tr)) /\
  preserves backend clear /\
  preserves backend reset /\
  (forall raiseEvent tile,
      (forall n a, preserves backend (raiseEvent n a)) ->
      preserves backend (drawTile raiseEvent tile)) /\
  (forall updateViewport,
      preserves backend updateViewport -> preserves backend (update updateViewport)) /\
  (forall fuel w o, destroy fuel w = Some o -> backend (final o) = backend w) /\
  (forall w w', backend w' = backend w -> canRotate w' = canRotate w /\
                                          (consistent w -> consistent w')).
Proof.
  split.
  { intros sc v el vp ts ck tr. unfold consistent, hasContext. cbn.
    destruct (sc && _); reflexivity. }
  split; [exact backend_clear|]. split; [exact backend_reset|].
  split; [exact backend_drawTile|]. split.
  { intros uv Huv. unfold update. keeps. }
  split.
  { intros fuel w o. apply destroy_keeps.
    - apply backend_unload.
    - apply backend_setCanvasWidth.
    - apply backend_setCanvasHeight. }
  intros w w' [= Hu Hc]. unfold canRotate, consistent. split; congruence.
Qed.

(** A new canvas drawer is still a consistent canvas drawer after a
    rotated draw whose handler throws, and can still rotate after a clear. *)
Lemma backend_sample :
  consistent (final (drawTile Sample.failing 0
                       (mkWorld Sample.surface (mkViewport 45 (mkPoint 100 100))
                                {[ 0 := Sample.tileAt 10 10 ]} 0 []))) /\
  canRotate (final (clear (Sample.world Sample.surface 45 10 10))) = true.
Proof.
  destruct backend_never_changes as (Hnew & Hclear & _ & Hdraw & _ & _ & Huse).
  split.
  - refine (proj2 (Huse (mkWorld Sample.surface (mkViewport 45 (mkPoint 100 100))
                                 {[ 0 := Sample.tileAt 10 10 ]} 0 []) _ _) _).
    + apply (Hdraw Sample.failing 0). intros n a w. reflexivity.
    + exact (Hnew true (Some (mkViewer true)) (mkCanvas 100 100 []) _ _ _ _).
  - rewrite (proj1 (Huse _ _ (Hclear (Sample.world Sample.surface 45 10 10)))). reflexivity.
Defined.

(** ** More on clearing *)

(** X2: on a drawer that has a context exactly when it uses a canvas,
    [clear] never throws, on either variant.  It removes every child of
    the drawer's element and leaves the tiles, the cache structures and
    flags, the viewport and the clock as they were.  The drawing context
    (its transformation and its saved states) is left as it was unless the
    dimensions are written, which resets it; on the div variant the
    dimensions and the (absent) context are left alone and no drawing call
    is issued. *)
Theorem clear_effect (w : World) :
  consistent w ->
  exists w',
    clear w = Return tt w' /\
    innerHTML (canvas (drawer w')) = [] /\
    tiles w' = tiles w /\
    bookkeeping w' = bookkeeping w /\
    viewport w' = viewport w /\
    clock w' = clock w /\
    (useCanvas (drawer w) = true ->
     context (drawer w') =
       if Js.neq (width (canvas (drawer w))) (x (getContainerSize (viewport w))) ||
          Js.neq (height (canvas (drawer w))) (y (getContainerSize (viewport w)))
       then Some (mkContext [] [])
       else context (drawer w)) /\
    (useCanvas (drawer w) = false ->
     width (canvas (drawer w')) = width (canvas (drawer w)) /\
     height (canvas (drawer w')) = height (canvas (drawer w)) /\
     context (drawer w') = context (drawer w) /\
     trace w' = trace w).
Proof.
  unfold consistent, hasContext. intros Hcons. unfold clear. run.
  destruct (useCanvas (drawer w)) eqn:Hu.
  - destruct (context (drawer w)) as [c|] eqn:Hc; [|discriminate].
    destruct (Js.neq (width (canvas (drawer w))) (x (containerSize (viewport w))) ||
              Js.neq (height (canvas (drawer w))) (y (containerSize (viewport w)))); cbn;
      repeat (first [rewrite Hu | rewrite Hc]; cbn);
      (eexists; split; [reflexivity|]); cbn;
      repeat split; discriminate.
  - eexists. split; [reflexivity|]. cbn. repeat split. discriminate.
Qed.

(** On the div variant, after a tile was drawn, [clear] removes its node
    and records nothing. *)
Lemma clear_sample_nodes :
  exists w',
    clear (final (drawTile Sample.quiet 0 (Sample.world Sample.nodes 0 10 10))) = Return tt w' /\
    innerHTML (canvas (drawer
      (final (drawTile Sample.quiet 0 (Sample.world Sample.nodes 0 10 10))))) =
      [mkNode 0 (mkPoint 10 10) (mkPoint 256 256)] /\
    innerHTML (canvas (drawer w')) = [] /\
    trace w' = [].
Proof.
  destruct (clear_effect (final (drawTile Sample.quiet 0 (Sample.world Sample.nodes 0 10 10)))
              eq_refl) as (w' & Hrun & Hkids & _ & _ & _ & _ & _ & Hnodes).
  exists w'. split; [exact Hrun|]. split; [reflexivity|]. split; [exact Hkids|].
  destruct (Hnodes eq_refl) as (_ & _ & _ & Htrace). rewrite Htrace. reflexivity.
Defined.

(** ** Failures of the rotation helpers *)

(** X3: without a drawing context the two rotation helpers both throw a
    TypeError, but not alike.  [_offsetForRotation] fails at
    [context.save()], before it has written anything, and leaves the world
    as it was.  [_restoreRotationChanges] writes the position first and
    fails at [context.restore()] after it: it leaves the tile shifted by
    the backend centre. *)
Theorem rotation_helpers_without_context (tile : TileId) (D : float) (w : World) (t : Tile) :
  context (drawer w) = None ->
  tiles w !! tile = Some t ->
  _offsetForRotation tile D w = Throw TypeError w /\
  _restoreRotationChanges tile w =
    Throw TypeError (with_tiles (insert tile (moveTo (plus (position t) (center w)) t)) w).
Proof.
  intros Hc Ht. split.
  - unfold _offsetForRotation. run. rewrite Ht. cbn. rewrite Hc. reflexivity.
  - unfold _restoreRotationChanges. run. rewrite Ht. cbn. rewrite Ht. cbn. rewrite Hc.
    reflexivity.
Qed.

(** On a div drawer with a 100x100 element, the tile at (10,10) stays
    there when entering fails and ends at (60,60) when leaving fails. *)
Lemma rotation_helpers_without_context_sample :
  positionOf 0 (final (_offsetForRotation 0 45 (Sample.world Sample.nodes 45 10 10)))
    = Some (mkPoint 10 10) /\
  positionOf 0 (final (_restoreRotationChanges 0 (Sample.world Sample.nodes 45 10 10)))
    = Some (mkPoint 60 60).
Proof.
  destruct (rotation_helpers_without_context 0 45 (Sample.world Sample.nodes 45 10 10)
              (Sample.tileAt 10 10) eq_refl eq_refl) as [Henter Hexit].
  rewrite Henter, Hexit. split; vm_compute; reflexivity.
Defined.

(** X4: [drawTile] on a reference to no tile throws a TypeError and leaves
    the world exactly as it was, on either variant, rotated or not and
    whatever the application's handlers are: in particular no drawing
    state is left saved and no handler has run. *)
Theorem drawTile_without_tile
    (raiseEvent : string -> DrawingArgs -> M unit) (tile : TileId) (w : World) :
  tiles w !! tile = None ->
  drawTile raiseEvent tile w = Throw TypeError w.
Proof.
  intros Ht. unfold drawTile, _offsetForRotation, tile_drawCanvas, tile_drawHTML. run.
  destruct (useCanvas (drawer w)); [destruct (Js.strict_neq _ _)|]; cbn;
    rewrite Ht; reflexivity.
Qed.

Lemma drawTile_without_tile_sample :
  drawTile Sample.failing 5 (Sample.world Sample.surface 45 10 10)
    = Throw TypeError (Sample.world Sample.surface 45 10 10) /\
  drawTile Sample.quiet 5 (Sample.world Sample.nodes 0 10 10)
    = Throw TypeError (Sample.world Sample.nodes 0 10 10).
Proof.
  split.
  - apply drawTile_without_tile. vm_compute. reflexivity.
  - apply drawTile_without_tile. vm_compute. reflexivity.
Defined.

(** ** Rotated frames inside one another *)

(** X5: rotated frames nest.  Entering [depth] times with
    [_offsetForRotation] and leaving as many times with
    [_restoreRotationChanges] returns normally and gives the drawing
    context back exactly as it was (transformation and saved states),
    however deep; the tile keeps its size, flag and image, every other
    tile and the canvas are untouched, and nothing is recorded. *)
Theorem nested_frames_balanced (depth : nat) (tile : TileId) (D : float) :
  forall (w : World) (c : Context) (t : Tile),
    context (drawer w) = Some c ->
    tiles w !! tile = Some t ->
    exists w',
      nested depth tile D (ret tt) w = Return tt w' /\
      context (drawer w') = Some c /\
      payload tile w' = payload tile w /\
      (forall k, k <> tile -> tiles w' !! k = tiles w !! k) /\
      canvas (drawer w') = canvas (drawer w) /\
      trace w' = trace w.
Proof.
  induction depth as [|depth IH]; intros w c t Hc Ht.
  - exists w. cbn. repeat split; auto.
  - cbn [nested]. unfold bind at 1.
    rewrite (offsetForRotation_run tile D w c t Hc Ht).
    set (w1 := with_tiles (insert tile (moveTo (minus (position t) (center w)) t))
                 (with_drawer
                    (set_context (Some (rotated (x (center w)) (y (center w)) D c))) w)).
    destruct (IH w1 (rotated (x (center w)) (y (center w)) D c)
                 (moveTo (minus (position t) (center w)) t))
      as (w2 & Hrun & Hc2 & Hpay & Hothers & Hcanvas & Htrace).
    { reflexivity. }
    { cbn. apply lookup_insert_eq. }
    unfold bind. rewrite Hrun.
    assert (exists t2, tiles w2 !! tile = Some t2 /\
                       (size t2, loaded t2, image t2) = (size t, loaded t, image t))
      as (t2 & Ht2 & Hsame).
    { unfold payload in Hpay. cbn in Hpay. rewrite lookup_insert_eq in Hpay. cbn in Hpay.
      destruct (tiles w2 !! tile) as [t2|]; [|discriminate].
      exists t2. split; [reflexivity|]. cbn in Hpay. congruence. }
    rewrite (restoreRotationChanges_run tile w2 _ t2 Hc2 Ht2).
    eexists. split; [reflexivity|]. split; [cbn; destruct c; reflexivity|]. cbn.
    split; [|split; [|split]].
    + unfold payload. cbn. rewrite lookup_insert_eq, Ht. cbn. congruence.
    + intros k Hk. rewrite lookup_insert_ne by congruence.
      rewrite (Hothers k Hk). cbn. now rewrite lookup_insert_ne by congruence.
    + exact Hcanvas.
    + exact Htrace.
Qed.

(** Three frames deep around tile 0 of the sample world. *)
Lemma nested_frames_sample :
  exists w',
    nested 3 0 45 (ret tt) (Sample.world Sample.surface 45 10 10) = Return tt w' /\
    context (drawer w') = Some (mkContext [] []) /\
    payload 0 w' = Some (mkPoint 256 256, true, Some 7).
Proof.
  destruct (nested_frames_balanced 3 0 45 (Sample.world Sample.surface 45 10 10)
              (mkContext [] []) (Sample.tileAt 10 10) eq_refl eq_refl)
    as (w' & Hrun & Hc & Hpay & _).
  exists w'. split; [exact Hrun|]. split; [exact Hc|]. rewrite Hpay. reflexivity.
Defined.

(** ** A drawer without a viewer *)

Lemma drawingHandler_without_viewer
    (raiseEvent : string -> DrawingArgs -> M unit) (a : DrawingArgs) (w : World) :
  viewer (drawer w) = None ->
  _drawingHandler raiseEvent a w = Return tt (record (DrawingHandler a) w).
Proof. intros Hv. rewrite drawingHandler_run, Hv. reflexivity. Qed.

Lemma drawCanvas_without_viewer
    (h1 h2 : string -> DrawingArgs -> M unit) (tile : TileId) (w : World) :
  viewer (drawer w) = None ->
  tile_drawCanvas tile (_drawingHandler h1) w = tile_drawCanvas tile (_drawingHandler h2) w.
Proof.
  intros Hv. unfold tile_drawCanvas. cbv [bind getTile].
  destruct (tiles w !! tile); [|reflexivity].
  now rewrite !drawingHandler_without_viewer by exact Hv.
Qed.

Lemma viewer_offsetForRotation (tile : TileId) (D : float) :
  preserves (fun w => viewer (drawer w)) (_offsetForRotation tile D).
Proof.
  unfold _offsetForRotation, setPosition, ctx_save, ctx_translate, ctx_rotate. keeps.
Qed.

(** X6: when the drawer has no viewer, the draw hook raises no event:
    [drawTile] does the same whatever handlers the application has, so
    none of them is run. *)
Theorem drawTile_without_viewer
    (h1 h2 : string -> DrawingArgs -> M unit) (tile : TileId) (w : World) :
  viewer (drawer w) = None ->
  drawTile h1 tile w = drawTile h2 tile w.
Proof.
  intros Hv. destruct (useCanvas (drawer w)) eqn:Hu.
  - destruct (Js.strict_neq (degrees (viewport w)) 0) eqn:Hd.
    + rewrite !(drawTile_rotated _ tile w Hu Hd). unfold bind.
      pose proof (viewer_offsetForRotation tile (degrees (viewport w)) w) as Hv1.
      destruct (_offsetForRotation tile (degrees (viewport w)) w) as [[] w1|e w1];
        [|reflexivity].
      cbn in Hv1. rewrite (drawCanvas_without_viewer h1 h2 tile w1) by congruence.
      reflexivity.
    + rewrite !(drawTile_unrotated _ tile w Hu Hd).
      apply drawCanvas_without_viewer, Hv.
  - rewrite !(drawTile_nodes _ tile w Hu). reflexivity.
Qed.

(** With no viewer, even a handler that would throw makes no difference:
    the rotated draw returns normally. *)
Lemma drawTile_without_viewer_sample :
  exists w',
    drawTile Sample.failing 0 Sample.bare = Return tt w' /\
    trace w' = [DrawingHandler (mkDrawingArgs 0 (Some 7));
                DrawImage (Some 7) (mkPoint (-40) (-40)) (mkPoint 256 256)].
Proof.
  rewrite (drawTile_without_viewer Sample.failing Sample.quiet 0 Sample.bare eq_refl).
  eexists. split; vm_compute; reflexivity.
Defined.

(** ** More on resetting *)

Lemma surroundings_unload (tile : TileId) : preserves surroundings (tile_unload tile).
Proof. unfold tile_unload. keeps. Qed.

Lemma surroundings_unloadAll (l : list TileId) : preserves surroundings (unloadAll l).
Proof. induction l; cbn [unloadAll]; keeps. Qed.

Lemma placement_unload (k tile : TileId) : preserves (placement k) (tile_unload tile).
Proof.
  intros w. unfold tile_unload. run.
  destruct (tiles w !! tile) as [t|] eqn:Ht; [|reflexivity].
  unfold placement. cbn. destruct (decide (k = tile)) as [->|Hne].
  - now rewrite lookup_insert_eq, Ht.
  - now rewrite lookup_insert_ne by congruence.
Qed.

Lemma placement_unloadAll (k : TileId) (l : list TileId) :
  preserves (placement k) (unloadAll l).
Proof. induction l; cbn [unloadAll]; keeps_using ltac:(apply placement_unload). Qed.

(** X7: a [reset] that returns has scheduled an update: [needsUpdate()]
    is true afterwards and [lastResetTime] is the time of the call.  It
    leaves the guard, the canvas, the drawing context, the trace and the
    position and size of every tile as they were. *)
Theorem reset_schedules_update (w w' : World) :
  reset w = Return tt w' ->
  needsUpdate w' = true /\
  lastResetTime (drawer w') = clock w /\
  midUpdate (drawer w') = midUpdate (drawer w) /\
  canvas (drawer w') = canvas (drawer w) /\
  context (drawer w') = context (drawer w) /\
  trace w' = trace w /\
  (forall k, placement k w' = placement k w).
Proof.
  rewrite reset_run.
  pose proof (surroundings_unloadAll (tilesLoaded (drawer w)) w) as Hs.
  pose proof (fun k => placement_unloadAll k (tilesLoaded (drawer w)) w) as Hp.
  destruct (unloadAll (tilesLoaded (drawer w)) w) as [[] w1|e w1]; [|discriminate].
  cbn in Hs, Hp. injection Hs as Hd Hv Hc Ht. intros [= <-]. cbn.
  rewrite Hd, Hc, Ht. repeat split. exact Hp.
Qed.

Lemma reset_schedules_update_sample :
  needsUpdate (final (reset Sample.busy)) = true /\
  lastResetTime (drawer (final (reset Sample.busy))) = 1000%Z /\
  placement 0 (final (reset Sample.busy)) = Some (mkPoint 10 10, mkPoint 256 256).
Proof.
  destruct (reset_schedules_update Sample.busy (final (reset Sample.busy))
              ltac:(vm_compute; reflexivity)) as (Hn & Ht & _ & _ & _ & _ & Hp).
  split; [exact Hn|]. split; [exact Ht|]. rewrite Hp. reflexivity.
Defined.

(** ** More on destroying *)

Lemma destroy_loop_untracked (k : TileId) (fuel : nat) :
  forall (i : nat) (w : World) (o : Outcome unit),
    k ∉ tilesLoaded (drawer w) ->
    destroy_loop fuel i w = Some o ->
    tiles (final o) !! k = tiles w !! k.
Proof.
  induction fuel as [|fuel IH]; intros i w o Hk; cbn [destroy_loop]; [discriminate|].
  destruct (tilesLoaded (drawer w) !! i) as [tile|] eqn:Hi; [|intros [= <-]; reflexivity].
  assert (Hne : k <> tile).
  { intros ->. apply Hk. eapply list_elem_of_lookup_2; eauto. }
  destruct (tiles w !! tile) as [t|] eqn:Ht.
  - rewrite (tile_unload_run tile w t Ht). intros Ho.
    rewrite (IH (S i) (with_tiles _ w) o Hk Ho). cbn.
    now rewrite lookup_insert_ne by congruence.
  - unfold tile_unload. run. rewrite Ht. intros [= <-]. reflexivity.
Qed.

(** X8: what a [destroy] that returns has done besides unloading.  Of the
    drawer it has changed the canvas dimensions, now 1 by 1, and on the
    canvas variant the drawing context, which the two writes reset to its
    initial state; the children of the element, the cache structures and
    the flags are as before, and on the div variant so is the context.
    The trace has gained the two dimension writes and nothing else; every
    tile is where it was with the size it had, and a tile that is not in
    [tilesLoaded] is untouched altogether. *)
Theorem destroy_effect_on_drawer (fuel : nat) (w w' : World) :
  destroy fuel w = Some (Return tt w') ->
  drawer w' = destroyed (drawer w) /\
  canvas (drawer w') = mkCanvas 1 1 (innerHTML (canvas (drawer w))) /\
  context (drawer w') =
    (if useCanvas (drawer w)
     then match context (drawer w) with
          | Some _ => Some (mkContext [] [])
          | None => None
          end
     else context (drawer w)) /\
  bookkeeping w' = bookkeeping w /\
  trace w' = trace w ++ [SetCanvasWidth 1; SetCanvasHeight 1] /\
  viewport w' = viewport w /\
  clock w' = clock w /\
  (forall k, placement k w' = placement k w) /\
  (forall k, k ∉ tilesLoaded (drawer w) -> tiles w' !! k = tiles w !! k).
Proof.
  unfold destroy.
  destruct (destroy_loop fuel 0 w) as [[[] w1|e w1]|] eqn:Hloop; [|discriminate|discriminate].
  pose proof (destroy_loop_keeps surroundings fuel surroundings_unload _ _ _ Hloop) as Hs.
  pose proof (fun k => destroy_loop_keeps (placement k) fuel (placement_unload k) _ _ _ Hloop)
    as Hp.
  pose proof (fun k Hk => destroy_loop_untracked k fuel _ _ _ Hk Hloop) as Hu.
  cbn in Hs, Hp, Hu. injection Hs as Hd Hv Hc Ht.
  rewrite shrink_run. intros [= <-]. cbn. rewrite Hd, Hv, Hc, Ht.
  unfold destroyed, bookkeeping, cacheState.
  destruct (useCanvas (drawer w)); cbn; repeat split; assumption.
Qed.

(** After a rotated draw that threw, [destroy] leaves the canvas 1 by 1
    and the context, which the draw had left rotated with one saved state,
    reset. *)
Lemma destroy_effect_on_drawer_sample :
  exists w',
    destroy 2 (final (drawTile Sample.failing 0 (Sample.world Sample.surface 45 10 10)))
      = Some (Return tt w') /\
    context (drawer (final (drawTile Sample.failing 0 (Sample.world Sample.surface 45 10 10))))
      = Some (mkContext [Translate 50 50; Rotate (Js.Math_PI / 180 * 45)%float] [[]]) /\
    context (drawer w') = Some (mkContext [] []) /\
    trace w' = [DrawingHandler (mkDrawingArgs 0 (Some 7));
                SetCanvasWidth 1; SetCanvasHeight 1] /\
    placement 0 w' = Some (mkPoint (-40) (-40), mkPoint 256 256).
Proof.
  destruct (destroy 2 (final (drawTile Sample.failing 0 (Sample.world Sample.surface 45 10 10))))
    as [[[] w'|e w']|] eqn:Hrun; [|vm_compute in Hrun; discriminate..].
  destruct (destroy_effect_on_drawer 2 _ w' Hrun) as (_ & _ & Hc & _ & Ht & _ & _ & Hp & _).
  exists w'. split; [reflexivity|]. split; [vm_compute; reflexivity|].
  split; [rewrite Hc; vm_compute; reflexivity|].
  split; [rewrite Ht; vm_compute; reflexivity|].
  rewrite Hp. vm_compute. reflexivity.
Defined.

Lemma unload_idle (tile : TileId) (w : World) :
  unloaded tile w -> tile_unload tile w = Return tt w.
Proof.
  intros (t & Ht & Hl & Hi). rewrite (tile_unload_run tile w t Ht). f_equal.
  destruct w as [d vp ts ck tr], t as [p s l im]. cbn in *. subst.
  unfold with_tiles. cbn. now rewrite insert_id.
Qed.

Lemma destroy_loop_idle (fuel : nat) :
  forall (i : nat) (w : World),
    (forall tile, tile ∈ tilesLoaded (drawer w) -> unloaded tile w) ->
    length (tilesLoaded (drawer w)) - i < fuel ->
    destroy_loop fuel i w = Some (Return tt w).
Proof.
  induction fuel as [|fuel IH]; intros i w Hun Hfuel; [lia|]. cbn [destroy_loop].
  destruct (tilesLoaded (drawer w) !! i) as [tile|] eqn:Hi; [|reflexivity].
  rewrite unload_idle by (apply Hun; eapply list_elem_of_lookup_2; eauto).
  apply IH; [exact Hun|]. apply lookup_lt_Some in Hi. lia.
Qed.

Lemma destroyed_tilesLoaded (d : Drawer) : tilesLoaded (destroyed d) = tilesLoaded d.
Proof. unfold destroyed. destruct (useCanvas d); reflexivity. Qed.

Lemma destroyed_idem (d : Drawer) : destroyed (destroyed d) = destroyed d.
Proof.
  unfold destroyed, resetContext. destruct (useCanvas d) eqn:Hu; cbn; rewrite Hu; cbn;
    [destruct (context d)|]; reflexivity.
Qed.

(** X9: [destroy] may be called again.  On a drawer whose loaded tiles
    are live, given rounds enough, a second [destroy] right after the
    first returns normally and changes neither the drawer nor any tile;
    it only repeats the two dimension writes. *)
Theorem destroy_twice (fuel : nat) (w : World) :
  live w ->
  length (tilesLoaded (drawer w)) < fuel ->
  exists w1 w2,
    destroy fuel w = Some (Return tt w1) /\
    destroy fuel w1 = Some (Return tt w2) /\
    drawer w2 = drawer w1 /\
    tiles w2 = tiles w1 /\
    trace w2 = trace w1 ++ [SetCanvasWidth 1; SetCanvasHeight 1].
Proof.
  intros Hlive Hfuel.
  destruct (destroy_loop_run fuel 0 w Hlive ltac:(lia))
    as (w0 & Hrun & Hd & _ & _ & _ & Hun & _ & _).
  eexists. eexists. split; [unfold destroy; rewrite Hrun, shrink_run; reflexivity|].
  split.
  - unfold destroy. rewrite destroy_loop_idle; [rewrite shrink_run; reflexivity| |].
    + intros tile Ht. cbn in Ht. rewrite destroyed_tilesLoaded, Hd in Ht.
      destruct (Hun tile Ht) as (t & Hlk & Hl & Hi). exists t. cbn. auto.
    + cbn. rewrite destroyed_tilesLoaded, Hd. lia.
  - cbn. split; [apply destroyed_idem|]. split; reflexivity.
Qed.

Lemma destroy_twice_sample :
  exists w1 w2,
    destroy 2 Sample.busy = Some (Return tt w1) /\
    destroy 2 w1 = Some (Return tt w2) /\
    drawer w2 = drawer w1 /\ tiles w2 = tiles w1.
Proof.
  assert (Hlive : live Sample.busy).
  { intros tile Ht. apply list_elem_of_singleton in Ht as ->. vm_compute. eauto. }
  destruct (destroy_twice 2 Sample.busy Hlive ltac:(vm_compute; lia))
    as (w1 & w2 & H1 & H2 & Hd & Ht & _).
  exists w1, w2. repeat split; assumption.
Defined.

(** ** What drawing a tile leaves alone *)

Lemma payload_setPosition (k tile : TileId) (p : Point) :
  preserves (payload k) (setPosition tile p).
Proof.
  intros w. unfold setPosition. run.
  destruct (tiles w !! tile) as [t|] eqn:Ht; [|reflexivity].
  unfold payload. cbn. destruct (decide (k = tile)) as [->|Hne].
  - now rewrite lookup_insert_eq, Ht.
  - now rewrite lookup_insert_ne by congruence.
Qed.

Lemma others_setPosition (k tile : TileId) (p : Point) :
  k <> tile -> preserves (fun w => tiles w !! k) (setPosition tile p).
Proof.
  intros Hne w. unfold setPosition. run.
  destruct (tiles w !! tile) as [t|] eqn:Ht; [|reflexivity].
  cbn. now rewrite lookup_insert_ne by congruence.
Qed.

Ltac unfold_drawTile :=
  unfold drawTile, _offsetForRotation, _restoreRotationChanges, tile_drawCanvas,
    tile_drawHTML, _drawingHandler, setInnerHTML,
    ctx_save, ctx_translate, ctx_rotate, ctx_restore, ctx_drawImage.

(** X10: [drawTile] writes nothing of a tile but the position of the one
    it draws.  Provided the application's handlers leave them alone too,
    a [drawTile], however it ends and on whichever path, leaves the size,
    loaded flag and image of every tile, every tile other than the one
    drawn, and the cache structures, timestamps and flags of the drawer
    as they were (in particular it does not enter the tile in
    [lastDrawn], and [numTilesLoaded()] is unchanged). *)
Theorem drawTile_writes_only_position
    (raiseEvent : string -> DrawingArgs -> M unit) (tile : TileId) :
  (forall k, (forall n a, preserves (payload k) (raiseEvent n a)) ->
             preserves (payload k) (drawTile raiseEvent tile)) /\
  (forall k, k <> tile ->
             (forall n a, preserves (fun w => tiles w !! k) (raiseEvent n a)) ->
             preserves (fun w => tiles w !! k) (drawTile raiseEvent tile)) /\
  ((forall n a, preserves bookkeeping (raiseEvent n a)) ->
   preserves bookkeeping (drawTile raiseEvent tile) /\
   preserves numTilesLoaded (drawTile raiseEvent tile)).
Proof.
  split; [|split].
  - intros k Hr. unfold_drawTile. keeps_using ltac:(apply payload_setPosition).
  - intros k Hne Hr. unfold_drawTile.
    keeps_using ltac:(apply others_setPosition; exact Hne).
  - intros Hr.
    assert (Hb : preserves bookkeeping (drawTile raiseEvent tile)).
    { unfold_drawTile. unfold setPosition. keeps. }
    split; [exact Hb|]. intros w. specialize (Hb w).
    unfold bookkeeping, cacheState in Hb. unfold numTilesLoaded. congruence.
Qed.

(** A rotated draw whose handler throws half way leaves the tile's size
    and image, the absence of a tile 1 and the count of loaded tiles as
    they were. *)
Lemma drawTile_writes_only_position_sample :
  payload 0 (final (drawTile Sample.failing 0 (Sample.world Sample.surface 45 10 10)))
    = Some (mkPoint 256 256, true, Some 7) /\
  tiles (final (drawTile Sample.failing 0 (Sample.world Sample.surface 45 10 10))) !! 1
    = None /\
  numTilesLoaded (final (drawTile Sample.failing 0 (Sample.world Sample.surface 45 10 10)))
    = 1.
Proof.
  destruct (drawTile_writes_only_position Sample.failing 0) as (Hp & Ho & Hb).
  split; [|split].
  - rewrite (Hp 0 (fun n a w => eq_refl)). reflexivity.
  - rewrite (Ho 1 ltac:(discriminate) (fun n a w => eq_refl)). reflexivity.
  - rewrite (proj2 (Hb (fun n a w => eq_refl))). reflexivity.
Defined.

(** ** The debug overlay *)

(** X11: [drawDebugInfo] leaves the drawing state as it found it.  On the
    canvas variant it returns with the current drawing state (line width,
    font, stroke and fill style, transformation) and the stack of saved
    states exactly as before the call, whatever they were, and has only
    added drawing calls; on the div variant it does nothing at all; with
    a canvas in use but no context it throws a TypeError. *)
Theorem drawDebugInfo_restores_state
    (o : Debug.Overlay) (tile : Debug.DebugTile) (count i : float) :
  (forall c,
      Debug.usesCanvas o = true ->
      Debug.context2d o = Some c ->
      exists c' cmds,
        Debug.drawDebugInfo o tile count i =
          inr (Debug.mkOverlay true (Some c') (Debug.debugGridColor o) (Debug.view o)) /\
        Debug.state c' = Debug.state c /\
        Debug.stack c' = Debug.stack c /\
        Debug.issued c' = Debug.issued c ++ cmds) /\
  (Debug.usesCanvas o = false -> Debug.drawDebugInfo o tile count i = inr o) /\
  (Debug.usesCanvas o = true -> Debug.context2d o = None ->
   Debug.drawDebugInfo o tile count i = inl TypeError).
Proof.
  split; [|split].
  - intros c Hu Hc. unfold Debug.drawDebugInfo, Debug.headline. rewrite Hu, Hc.
    destruct (Js.strict_eq (Debug.column tile) 0 && Js.strict_eq (Debug.row tile) 0);
      cbn; (eexists; eexists; split; [reflexivity|]); cbn;
      (split; [reflexivity|]); (split; [reflexivity|]);
      rewrite <- !app_assoc; reflexivity.
  - intros Hu. unfold Debug.drawDebugInfo. now rewrite Hu.
  - intros Hu Hc. unfold Debug.drawDebugInfo. now rewrite Hu, Hc.
Qed.

(** On a context that is rotated, has one saved state and a black pen,
    the overlay for tile (0,0) leaves all of that in place. *)
Lemma drawDebugInfo_restores_state_sample :
  (exists c',
     Debug.drawDebugInfo (Debug.sampleOverlay true) (Debug.sampleTile 0 0) 12 4 =
       inr (Debug.mkOverlay true (Some c') "red" (Debug.mkView 2 (Debug.mkRect 0 0 1 1))) /\
     Debug.state c' = Debug.state Debug.sampleContext /\
     Debug.stack c' = Debug.stack Debug.sampleContext) /\
  Debug.drawDebugInfo (Debug.sampleOverlay false) (Debug.sampleTile 0 0) 12 4 =
    inr (Debug.sampleOverlay false).
Proof.
  destruct (drawDebugInfo_restores_state (Debug.sampleOverlay true) (Debug.sampleTile 0 0) 12 4)
    as (Hcanvas & _ & _).
  destruct (Hcanvas Debug.sampleContext eq_refl eq_refl) as (c' & cmds & Hrun & Hs & Hk & _).
  split.
  - exists c'. split; [exact Hrun|]. split; assumption.
  - exact (proj1 (proj2 (drawDebugInfo_restores_state (Debug.sampleOverlay false)
                           (Debug.sampleTile 0 0) 12 4)) eq_refl).
Defined.

(** X12: what [drawDebugInfo] draws on the canvas variant.  Its first call
    is [strokeRect] over the tile's rectangle (position and size); it is
    followed by text calls only, eight of them for the tile at column 0,
    row 0 (which gets the zoom and pan lines) and six for any other tile.
    Every call is issued with line width 2, the font
    ['small-caps bold 13px ariel'] and [debugGridColor] as stroke and fill
    style, under the transformation that was in force when
    [drawDebugInfo] was called: the overlay applies no rotation of its
    own. *)
Theorem drawDebugInfo_calls
    (o : Debug.Overlay) (tile : Debug.DebugTile) (count i : float) (c : Debug.Context2D) :
  Debug.usesCanvas o = true ->
  Debug.context2d o = Some c ->
  let under := Debug.mkState (Debug.transform (Debug.state c))
                             (Debug.debugPen (Debug.debugGridColor o)) in
  exists c' texts,
    Debug.drawDebugInfo o tile count i =
      inr (Debug.mkOverlay true (Some c') (Debug.debugGridColor o) (Debug.view o)) /\
    Debug.issued c' =
      Debug.issued c ++
      Debug.StrokeRect under
        (x (position (Debug.placed tile))) (y (position (Debug.placed tile)))
        (x (size (Debug.placed tile))) (y (size (Debug.placed tile))) :: texts /\
    Forall (fun cmd => Debug.isText cmd = true /\ Debug.issuedUnder cmd = under) texts /\
    length texts =
      if Js.strict_eq (Debug.column tile) 0 && Js.strict_eq (Debug.row tile) 0
      then 8 else 6.
Proof.
  intros Hu Hc under. unfold Debug.drawDebugInfo, Debug.headline. rewrite Hu, Hc.
  destruct (Js.strict_eq (Debug.column tile) 0 && Js.strict_eq (Debug.row tile) 0);
    cbn; (eexists; eexists; split; [reflexivity|]); cbn;
    (split; [rewrite <- !app_assoc; reflexivity|]);
    (split; [|reflexivity]);
    repeat (constructor; [split; reflexivity|]); constructor.
Qed.

(** Tile (0,0) gets eight text lines, tile (3,1) six; the first of them
    is the zoom line for the one and the level line for the other. *)
Lemma drawDebugInfo_calls_sample :
  (exists c' texts,
     Debug.drawDebugInfo (Debug.sampleOverlay true) (Debug.sampleTile 0 0) 12 4 =
       inr (Debug.mkOverlay true (Some c') "red" (Debug.mkView 2 (Debug.mkRect 0 0 1 1))) /\
     Debug.issued c' =
       Debug.StrokeRect (Debug.mkState [Rotate 1] (Debug.debugPen "red")) 10 10 256 256
         :: texts /\
     length texts = 8) /\
  (exists c' texts,
     Debug.drawDebugInfo (Debug.sampleOverlay true) (Debug.sampleTile 3 1) 12 4 =
       inr (Debug.mkOverlay true (Some c') "red" (Debug.mkView 2 (Debug.mkRect 0 0 1 1))) /\
     Debug.issued c' =
       Debug.StrokeRect (Debug.mkState [Rotate 1] (Debug.debugPen "red")) 10 10 256 256
         :: texts /\
     length texts = 6).
Proof.
  split.
  - destruct (drawDebugInfo_calls (Debug.sampleOverlay true) (Debug.sampleTile 0 0) 12 4
                Debug.sampleContext eq_refl eq_refl) as (c' & texts & Hrun & Hi & _ & Hlen).
    exists c', texts. split; [exact Hrun|]. split; [exact Hi | exact Hlen].
  - destruct (drawDebugInfo_calls (Debug.sampleOverlay true) (Debug.sampleTile 3 1) 12 4
                Debug.sampleContext eq_refl eq_refl) as (c' & texts & Hrun & Hi & _ & Hlen).
    exists c', texts. split; [exact Hrun|]. split; [exact Hi | exact Hlen].
Defined.
